(** * Rubric validation and the rubric store of [rubric_helper.py]

    A shallow embedding of the rubric validator ([validate_rubric]), the
    version helper ([increment_version]) and the rubric store
    ([load_rubric_from_file], [save_rubric_to_file], [list_available_rubrics],
    [restore_rubric_version]) of the video analyzer, with the properties its
    design document states about them.

    Conventions of the embedding:
    - a rubric is the JSON document [json.load] returns: [value];
    - a Python [str] is a [string] of code points below 256;
    - a Python [int] is a [Z], a Python [float] a binary64 [float];
    - a raised exception is the [Raise] outcome of [result];
    - the file system is a [store]; what the operating system and the clock
      decide (an I/O failure, the time stamp) is read from an [env];
    - the store is the rubrics directory with its [versions] directory, both
      holding regular files: file names are taken as one path component
      (see [valid_name]), and [Path.glob] refuses a pattern with [**]
      inside a component, as CPython 3.11 and 3.12 do;
    - the interpreter's limit on the number of digits of a conversion between
      [str] and [int] (a run-time setting, 4300 digits by default) is not
      part of the embedding: integers convert at any length. *)

From Stdlib Require Import ZArith Bool Ascii String List.
From Stdlib Require Import DecimalString DecimalPos.
From Stdlib Require Import Floats.PrimFloat Floats.SpecFloat Floats.FloatOps.
From stdpp Require Import base option list strings gmap sorting.

Set Warnings "-inexact-float,-register-all".

Local Open Scope Z_scope.
Local Open Scope string_scope.

(** ** Python values *)

Module Py.

(** The exceptions the modelled code can raise. *)
Inductive exn : Type :=
  | TypeError
  | ValueError
  | AttributeError
  | OverflowError
  | KeyError
  | OSError.

(** The outcome of evaluating a Python expression. *)
Inductive result (A : Type) : Type :=
  | Ok (a : A)
  | Raise (e : exn).
Arguments Ok {A} a.
Arguments Raise {A} e.

Definition bind {A B : Type} (r : result A) (k : A -> result B) : result B :=
  match r with
  | Ok a => k a
  | Raise e => Raise e
  end.

Definition raises {A : Type} (r : result A) : Prop :=
  match r with
  | Ok _ => False
  | Raise _ => True
  end.

(** What [json.load] builds: [None], [bool], [int], [float], [str], [list]
    and [dict] with string keys in insertion order. *)
Inductive value : Type :=
  | VNull
  | VBool (b : bool)
  | VInt (z : Z)
  | VFloat (f : float)
  | VStr (s : string)
  | VList (l : list value)
  | VDict (d : list (string * value)).

Definition dict : Type := list (string * value).

(** [d.get(k)] *)
Fixpoint dict_get (k : string) (d : dict) : option value :=
  match d with
  | [] => None
  | (k', v) :: d' => if String.eqb k k' then Some v else dict_get k d'
  end.

(** [k in d] *)
Definition dict_has (k : string) (d : dict) : bool :=
  match dict_get k d with
  | Some _ => true
  | None => false
  end.

(** [d[k] = v]: an existing key keeps its position, a new one goes last. *)
Fixpoint dict_set (k : string) (v : value) (d : dict) : dict :=
  match d with
  | [] => [(k, v)]
  | (k', v') :: d' =>
      if String.eqb k k' then (k, v) :: d' else (k', v') :: dict_set k v d'
  end.

(** [required - set(d.keys())], listed in the order of [required]. *)
Definition missing_keys (required : list string) (d : dict) : list string :=
  List.filter (fun k => negb (dict_has k d)) required.

(** *** Strings *)

(** [needle in s] for two strings. *)
Fixpoint is_substring (needle s : string) : bool :=
  String.prefix needle s
  || match s with
     | EmptyString => false
     | String _ s' => is_substring needle s'
     end.

(** [s.split(sep)] for a one-character separator. *)
Fixpoint split (sep : ascii) (s : string) : list string :=
  match s with
  | EmptyString => [EmptyString]
  | String c s' =>
      if Ascii.eqb c sep then EmptyString :: split sep s'
      else match split sep s' with
           | [] => [String c EmptyString]
           | p :: ps => String c p :: ps
           end
  end.

(** The code points below 256 that [int] and [float] skip as white space
    around a literal. *)
Definition is_space (c : ascii) : bool :=
  let n := N.to_nat (N_of_ascii c) in
  ((9 <=? n) && (n <=? 13) || (n =? 32) || (n =? 133) || (n =? 160))%nat.

Fixpoint lstrip (s : string) : string :=
  match s with
  | String c s' => if is_space c then lstrip s' else s
  | EmptyString => EmptyString
  end.

Fixpoint rstrip (s : string) : string :=
  match s with
  | EmptyString => EmptyString
  | String c s' =>
      match rstrip s' with
      | EmptyString => if is_space c then EmptyString else String c EmptyString
      | r => String c r
      end
  end.

Definition strip (s : string) : string := rstrip (lstrip s).

Definition digit_of (c : ascii) : option Z :=
  let n := Z.of_N (N_of_ascii c) in
  if ((48 <=? n) && (n <=? 57))%Z then Some (n - 48) else None.

Definition is_digit (c : ascii) : bool :=
  match digit_of c with
  | Some _ => true
  | None => false
  end.

(** A run of decimal digits in which single underscores may separate digits:
    the digits read and the rest of the string. *)
Fixpoint digitpart (s : string) : list Z * string :=
  match s with
  | EmptyString => ([], s)
  | String c s1 =>
      match digit_of c with
      | None => ([], s)
      | Some d =>
          match s1 with
          | String "_" (String c2 _ as s2) =>
              if is_digit c2
              then let '(ds, r) := digitpart s2 in (d :: ds, r)
              else ([d], s1)
          | _ => let '(ds, r) := digitpart s1 in (d :: ds, r)
          end
      end
  end.

Definition digits_value (ds : list Z) : Z :=
  fold_left (fun acc d => 10 * acc + d) ds 0.

(** An optional sign: whether it is a minus, and the rest. *)
Definition read_sign (s : string) : bool * string :=
  match s with
  | String "-" s' => (true, s')
  | String "+" s' => (false, s')
  | _ => (false, s)
  end.

(** [int(s)] for a string, base 10; [None] is [ValueError]. *)
Definition int_of_string (s : string) : option Z :=
  let '(neg, body) := read_sign (strip s) in
  match digitpart body with
  | ((_ :: _) as ds, EmptyString) =>
      Some (if neg then - digits_value ds else digits_value ds)
  | _ => None
  end.

(** [str(n)] for an integer. *)
Definition string_of_int (n : Z) : string :=
  NilEmpty.string_of_int (Z.to_int n).

(** *** Numbers *)

(** The integer nearest to zero of a finite float: [int(f)] truncates. *)
Definition trunc_float (f : float) : result Z :=
  match Prim2SF f with
  | S754_zero _ => Ok 0
  | S754_finite s m e =>
      let a := if (0 <=? e)%Z then Z.pos m * 2 ^ e else Z.pos m / 2 ^ (- e) in
      Ok (if s then - a else a)
  | S754_infinity _ => Raise OverflowError
  | S754_nan => Raise ValueError
  end.

(** The integer a float is exactly equal to, if there is one. *)
Definition float_exact_int (f : float) : option Z :=
  match Prim2SF f with
  | S754_zero _ => Some 0
  | S754_finite s m e =>
      if (0 <=? e)%Z
      then Some (if s then - (Z.pos m * 2 ^ e) else Z.pos m * 2 ^ e)
      else if (Z.pos m mod 2 ^ (- e) =? 0)%Z
           then Some (if s then - (Z.pos m / 2 ^ (- e)) else Z.pos m / 2 ^ (- e))
           else None
  | _ => None
  end.

(** [float(n)] for an integer: the nearest float, ties to even; an integer
    beyond the largest float raises [OverflowError]. *)
Definition float_of_int (n : Z) : result float :=
  match binary_normalize prec emax n 0 false with
  | S754_infinity _ => Raise OverflowError
  | sf => Ok (SF2Prim sf)
  end.

(** The float nearest to [m * 10 ^ e10], ties to even; [neg] is the sign of a
    zero. *)
Definition float_of_decimal (neg : bool) (m e10 : Z) : float :=
  if (0 <=? e10)%Z then SF2Prim (binary_normalize prec emax (m * 10 ^ e10) 0 neg)
  else
    let d := 10 ^ (- e10) in
    let s := Z.max 0 (Z.log2_up d - Z.log2 (Z.abs m) + 66) in
    let q := Z.abs m * 2 ^ s / d in
    let sticky := if (Z.abs m * 2 ^ s mod d =? 0)%Z then 0 else 1 in
    let mant := 2 * q + sticky in
    SF2Prim (binary_normalize prec emax (if (m <? 0)%Z then - mant else mant)
               (- (s + 1)) neg).

Definition lower (c : ascii) : ascii :=
  let n := N_of_ascii c in
  if ((65 <=? n) && (n <=? 90))%N then ascii_of_N (n + 32) else c.

Fixpoint lowercase (s : string) : string :=
  match s with
  | EmptyString => EmptyString
  | String c s' => String (lower c) (lowercase s')
  end.

(** The exponent part of a float literal: [e] or [E], a sign, digits. *)
Definition read_exponent (s : string) : option Z :=
  match s with
  | EmptyString => Some 0
  | String c s' =>
      if Ascii.eqb (lower c) "e" then
        let '(neg, body) := read_sign s' in
        match digitpart body with
        | ((_ :: _) as ds, EmptyString) =>
            Some (if neg then - digits_value ds else digits_value ds)
        | _ => None
        end
      else None
  end.

(** [float(s)] for a string; [None] is [ValueError]. *)
Definition float_of_string (s : string) : option float :=
  let '(neg, body) := read_sign (strip s) in
  let word := lowercase body in
  if String.eqb word "inf" || String.eqb word "infinity"
  then Some (if neg then neg_infinity else infinity)
  else if String.eqb word "nan" then Some nan
  else
    let '(ip, r1) := digitpart body in
    let '(fp, r2) :=
      match r1 with
      | String "." r => digitpart r
      | _ => ([], r1)
      end in
    match (ip ++ fp)%list with
    | [] => None
    | ds =>
        match read_exponent r2 with
        | None => None
        | Some e =>
            let m := digits_value ds in
            Some (float_of_decimal neg (if neg then - m else m)
                    (e - Z.of_nat (List.length fp)))
        end
    end.

(** [float(v)] *)
Definition to_float (v : value) : result float :=
  match v with
  | VFloat f => Ok f
  | VInt n => float_of_int n
  | VBool b => Ok (if b then 1%float else 0%float)
  | VStr s =>
      match float_of_string s with
      | Some f => Ok f
      | None => Raise ValueError
      end
  | VNull | VList _ | VDict _ => Raise TypeError
  end.

(** [int(v)] *)
Definition to_int (v : value) : result Z :=
  match v with
  | VInt n => Ok n
  | VBool b => Ok (if b then 1 else 0)
  | VFloat f => trunc_float f
  | VStr s =>
      match int_of_string s with
      | Some n => Ok n
      | None => Raise ValueError
      end
  | VNull | VList _ | VDict _ => Raise TypeError
  end.

(** [n == v] for an integer [n]: numbers compare by their exact value, a
    number never equals a value that is not one. *)
Definition int_eq (n : Z) (v : value) : bool :=
  match v with
  | VInt m => Z.eqb n m
  | VBool b => Z.eqb n (if b then 1 else 0)
  | VFloat f =>
      match float_exact_int f with
      | Some m => Z.eqb n m
      | None => false
      end
  | _ => false
  end.

Definition is_nan_value (v : value) : bool :=
  match v with
  | VFloat f => PrimFloat.is_nan f
  | _ => false
  end.

(** [a == b] for two values that can be members of a set. *)
Definition key_eq (a b : value) : bool :=
  match a, b with
  | VNull, VNull => true
  | VStr s, VStr t => String.eqb s t
  | VInt n, _ => int_eq n b
  | VBool x, _ => int_eq (if x then 1 else 0) b
  | VFloat f, VFloat g => PrimFloat.eqb f g
  | VFloat f, (VInt _ | VBool _) =>
      match float_exact_int f with
      | Some n => int_eq n b
      | None => false
      end
  | _, _ => false
  end.

(** [v in seen] for a set [seen]: a list or a dict cannot be hashed; a member
    is found by identity or by [==], and [json.load] returns one shared NaN
    object. *)
Definition set_member (v : value) (seen : list value) : result bool :=
  match v with
  | VList _ | VDict _ => Raise TypeError
  | _ => Ok (existsb (fun w => key_eq v w || is_nan_value v && is_nan_value w) seen)
  end.

(** [k in v] for a string [k]. *)
Definition contains (v : value) (k : string) : result bool :=
  match v with
  | VDict d => Ok (dict_has k d)
  | VList l =>
      Ok (existsb (fun x => match x with
                            | VStr s => String.eqb k s
                            | _ => false
                            end) l)
  | VStr s => Ok (is_substring k s)
  | VNull | VBool _ | VInt _ | VFloat _ => Raise TypeError
  end.

(** [v[k]] for a string [k]. *)
Definition getitem (v : value) (k : string) : result value :=
  match v with
  | VDict d =>
      match dict_get k d with
      | Some x => Ok x
      | None => Raise KeyError
      end
  | _ => Raise TypeError
  end.

(** [all(k in v for k in keys)] *)
Fixpoint all_in (keys : list string) (v : value) : result bool :=
  match keys with
  | [] => Ok true
  | k :: ks =>
      match contains v k with
      | Ok true => all_in ks v
      | r => r
      end
  end.

(** [keys - set(v.keys())] *)
Definition missing_of (keys : list string) (v : value) : result (list string) :=
  match v with
  | VDict d => Ok (missing_keys keys d)
  | _ => Raise AttributeError
  end.

End Py.

Import Py.

(** ** The validator: [validate_rubric] *)

(** The reasons [validate_rubric] returns with [False], one per [return]
    statement of the source, each with the values its message prints. *)
Inductive reason : Type :=
  | NoFormatKey
      (* "Rubric must have either 'categories' (new format) or 'criteria' (old format)" *)
  | MissingKeys (missing : list string)
      (* "Missing required keys: {missing}" *)
  | CategoriesNotList
      (* "categories must be a non-empty list" *)
  | CategoryMissingFields (i : nat) (missing : list string)
      (* "Category {i} missing required fields: {missing}" *)
  | DuplicateCategoryId (cid : value)
      (* "Duplicate category ID: {category_id}" *)
  | CategoryWeightRange (cid : value)
      (* "Category '{category_id}' weight must be between 0 and 1" *)
  | CategoryWeightNotNumber (cid : value)
      (* "Category '{category_id}' weight must be a number" *)
  | CategoryPointsNotPositive (cid : value)
      (* "Category '{category_id}' max_points must be positive" *)
  | CategoryPointsNotInteger (cid : value)
      (* "Category '{category_id}' max_points must be a positive integer" *)
  | CategoryCriteriaNotList (cid : value)
      (* "Category '{category_id}' criteria must be a non-empty list" *)
  | CriterionMissingFields (cid : value) (j : nat) (missing : list string)
      (* "Category '{category_id}' criterion {j} missing required fields: {missing}" *)
  | DuplicateCriterionIdIn (cid crid : value)
      (* "Duplicate criterion ID in category '{category_id}': {criterion_id}" *)
  | CriterionPointsNotPositive (crid : value)
      (* "Criterion '{criterion_id}' max_points must be positive" *)
  | CriterionPointsNotInteger (crid : value)
      (* "Criterion '{criterion_id}' max_points must be a positive integer" *)
  | PointsSumMismatch (cid declared : value) (category_points : Z)
      (* "Category '{category_id}' max_points ({max_points}) doesn't match sum
         of criteria points ({category_points})" *)
  | CategoryWeightSum (total_weight : float)
      (* "Category weights must sum to 1.0 (current sum: {total_weight:.4f})" *)
  | CriteriaNotList
      (* "criteria must be a non-empty list" *)
  | LegacyCriterionMissingFields (i : nat) (missing : list string)
      (* "Criterion {i} missing required fields: {missing}" *)
  | DuplicateCriterionId (crid : value)
      (* "Duplicate criterion ID: {id}" *)
  | CriterionWeightRange (crid : value)
      (* "Criterion '{id}' weight must be between 0 and 1" *)
  | CriterionWeightNotNumber (crid : value)
      (* "Criterion '{id}' weight must be a number" *)
  | CriterionWeightSum (total_weight : float)
      (* "Criterion weights must sum to 1.0 (current sum: {total_weight:.4f})" *)
  | ScaleNotDict
      (* "scale must be a dict" *)
  | ScaleMissingKeys
      (* "scale must have 'min' and 'max' keys" *)
  | ScaleOrder
      (* "scale min must be less than max" *)
  | ScaleNotNumbers
      (* "scale min and max must be numbers" *)
  | ThresholdsNotDict
      (* "thresholds must be a dict" *)
  | ThresholdsMissingKeys
      (* "thresholds must have 'pass' and 'revise' keys" *)
  | ThresholdsOrder
      (* "revise threshold must be less than pass threshold" *)
  | ThresholdsNotNumbers
      (* "thresholds must be numbers" *).

(** A step of the validator: it goes on with a value, returns
    [(False, reason)], or lets an exception escape. *)
Inductive check (A : Type) : Type :=
  | Pass (a : A)
  | Reject (r : reason)
  | Throw (e : exn).
Arguments Pass {A} a.
Arguments Reject {A} r.
Arguments Throw {A} e.

#[global] Instance check_ret : MRet check := fun _ a => Pass a.
#[global] Instance check_bind : MBind check := fun _ _ k c =>
  match c with
  | Pass a => k a
  | Reject r => Reject r
  | Throw e => Throw e
  end.

(** An expression evaluated outside any [try]. *)
Definition eval {A : Type} (r : result A) : check A :=
  match r with
  | Ok a => Pass a
  | Raise e => Throw e
  end.

(** [try: x = e ... except (TypeError, ValueError): return False, r] *)
Definition try_number {A : Type} (e : result A) (r : reason) : check A :=
  match e with
  | Ok a => Pass a
  | Raise TypeError | Raise ValueError => Reject r
  | Raise x => Throw x
  end.

(** [if cond: return False, r] *)
Definition reject_if (cond : bool) (r : reason) : check unit :=
  if cond then Reject r else Pass tt.

(** [if not all(k in v for k in keys): return False, r (keys - set(v.keys()))] *)
Definition require_keys (keys : list string) (v : value)
    (r : list string -> reason) : check unit :=
  present ← eval (all_in keys v);
  if present : bool then Pass tt
  else missing ← eval (missing_of keys v); Reject (r missing).

(** [not isinstance(v, list) or len(v) == 0] *)
Definition nonempty_list (v : value) (r : reason) : check (list value) :=
  match v with
  | VList (x :: l) => Pass (x :: l)
  | _ => Reject r
  end.

Definition required_crit_fields : list string :=
  ["criterion_id"; "label"; "desc"; "max_points"].

(** The body of the loop over the criteria of a category (source lines
    115-134): the ids seen and the points summed so far go in and come out. *)
Definition check_criterion (cid : value) (j : nat) (criterion : value)
    (st : list value * Z) : check (list value * Z) :=
  let '(seen_crit_ids, category_points) := st in
  require_keys required_crit_fields criterion (CriterionMissingFields cid j);;
  crid ← eval (getitem criterion "criterion_id");
  dup ← eval (set_member crid seen_crit_ids);
  reject_if dup (DuplicateCriterionIdIn cid crid);;
  crit_max_points ←
    try_number (bind (getitem criterion "max_points") to_int)
      (CriterionPointsNotInteger crid);
  reject_if (crit_max_points <=? 0)%Z (CriterionPointsNotPositive crid);;
  Pass (crid :: seen_crit_ids, category_points + crit_max_points).

Fixpoint check_criteria (cid : value) (j : nat) (criteria : list value)
    (st : list value * Z) : check (list value * Z) :=
  match criteria with
  | [] => Pass st
  | criterion :: rest =>
      st' ← check_criterion cid j criterion st;
      check_criteria cid (S j) rest st'
  end.

Definition required_fields : list string :=
  ["category_id"; "label"; "weight"; "max_points"; "criteria"].

(** The body of the loop over the categories (source lines 80-138). *)
Definition check_category (i : nat) (category : value)
    (st : list value * float) : check (list value * float) :=
  let '(seen_cat_ids, total_weight) := st in
  require_keys required_fields category (CategoryMissingFields i);;
  cid ← eval (getitem category "category_id");
  dup ← eval (set_member cid seen_cat_ids);
  reject_if dup (DuplicateCategoryId cid);;
  weight ←
    try_number (bind (getitem category "weight") to_float)
      (CategoryWeightNotNumber cid);
  reject_if (PrimFloat.ltb weight 0 || PrimFloat.ltb 1 weight)
    (CategoryWeightRange cid);;
  max_points ←
    try_number (bind (getitem category "max_points") to_int)
      (CategoryPointsNotInteger cid);
  reject_if (max_points <=? 0)%Z (CategoryPointsNotPositive cid);;
  raw_criteria ← eval (getitem category "criteria");
  criteria ← nonempty_list raw_criteria (CategoryCriteriaNotList cid);
  '(_, category_points) ← check_criteria cid 0 criteria ([], 0);
  declared ← eval (getitem category "max_points");
  reject_if (negb (int_eq category_points declared))
    (PointsSumMismatch cid declared category_points);;
  Pass (cid :: seen_cat_ids, (total_weight + weight)%float).

Fixpoint check_categories (i : nat) (categories : list value)
    (st : list value * float) : check (list value * float) :=
  match categories with
  | [] => Pass st
  | category :: rest =>
      st' ← check_category i category st;
      check_categories (S i) rest st'
  end.

(** [not (0.99 <= total_weight <= 1.01)] *)
Definition weight_sum_off (total_weight : float) : bool :=
  negb (PrimFloat.leb 0.99 total_weight && PrimFloat.leb total_weight 1.01).

(** The hierarchical branch (source lines 67-142). *)
Definition check_new_format (rubric : value) : check unit :=
  require_keys ["categories"; "scale"; "overall_method"; "thresholds"] rubric
    MissingKeys;;
  raw ← eval (getitem rubric "categories");
  categories ← nonempty_list raw CategoriesNotList;
  '(_, total_weight) ← check_categories 0 categories ([], 0%float);
  reject_if (weight_sum_off total_weight) (CategoryWeightSum total_weight).

Definition required_legacy_fields : list string :=
  ["id"; "label"; "desc"; "weight"].

(** The body of the loop over the criteria of a flat rubric (source lines
    157-176). *)
Definition check_legacy_criterion (i : nat) (criterion : value)
    (st : list value * float) : check (list value * float) :=
  let '(seen_ids, total_weight) := st in
  require_keys required_legacy_fields criterion (LegacyCriterionMissingFields i);;
  crid ← eval (getitem criterion "id");
  dup ← eval (set_member crid seen_ids);
  reject_if dup (DuplicateCriterionId crid);;
  weight ←
    try_number (bind (getitem criterion "weight") to_float)
      (CriterionWeightNotNumber crid);
  reject_if (PrimFloat.ltb weight 0 || PrimFloat.ltb 1 weight)
    (CriterionWeightRange crid);;
  Pass (crid :: seen_ids, (total_weight + weight)%float).

Fixpoint check_legacy_criteria (i : nat) (criteria : list value)
    (st : list value * float) : check (list value * float) :=
  match criteria with
  | [] => Pass st
  | criterion :: rest =>
      st' ← check_legacy_criterion i criterion st;
      check_legacy_criteria (S i) rest st'
  end.

(** The flat branch (source lines 144-180). *)
Definition check_old_format (rubric : value) : check unit :=
  require_keys ["criteria"; "scale"; "overall_method"; "thresholds"] rubric
    MissingKeys;;
  raw ← eval (getitem rubric "criteria");
  criteria ← nonempty_list raw CriteriaNotList;
  '(_, total_weight) ← check_legacy_criteria 0 criteria ([], 0%float);
  reject_if (weight_sum_off total_weight) (CriterionWeightSum total_weight).

(** A mapping with two numeric entries, the one under [lo] below the one
    under [hi]: the checks of [scale] and of [thresholds] (source lines
    182-206). [first] is the key converted first. *)
Definition check_bounds (v : value) (lo hi first : string)
    (not_dict missing order not_numbers : reason) : check unit :=
  match v with
  | VDict d =>
      reject_if (negb (dict_has lo d) || negb (dict_has hi d)) missing;;
      let second := if String.eqb first lo then hi else lo in
      a ← try_number (bind (getitem v first) to_float) not_numbers;
      b ← try_number (bind (getitem v second) to_float) not_numbers;
      let '(lo_val, hi_val) := if String.eqb first lo then (a, b) else (b, a) in
      reject_if (PrimFloat.leb hi_val lo_val) order
  | _ => Reject not_dict
  end.

Definition check_rubric (rubric : value) : check unit :=
  is_new_format ← eval (contains rubric "categories");
  is_old_format ← eval (contains rubric "criteria");
  reject_if (negb is_new_format && negb is_old_format) NoFormatKey;;
  (if is_new_format : bool then check_new_format rubric
   else check_old_format rubric);;
  scale ← eval (getitem rubric "scale");
  check_bounds scale "min" "max" "min"
    ScaleNotDict ScaleMissingKeys ScaleOrder ScaleNotNumbers;;
  thresholds ← eval (getitem rubric "thresholds");
  check_bounds thresholds "revise" "pass" "pass"
    ThresholdsNotDict ThresholdsMissingKeys ThresholdsOrder ThresholdsNotNumbers.

(** [validate_rubric(rubric)]: the pair it returns, or the exception that
    escapes it. *)
Definition validate_rubric (rubric : value) : result (bool * option reason) :=
  match check_rubric rubric with
  | Pass _ => Ok (true, None)
  | Reject r => Ok (false, Some r)
  | Throw e => Raise e
  end.

(** ** Versions: [increment_version] *)

(** [increment_version(current_version)]. The body of the [try] is
    [increment_body]; [ValueError] and [IndexError] are caught, and the only
    exception the body can raise is the [ValueError] of [int]. *)
Definition increment_body (current_version : string) : result string :=
  match split "." current_version with
  | major :: minor_text :: _ =>
      bind (to_int (VStr minor_text)) (fun minor =>
      Ok (major ++ "." ++ string_of_int (minor + 1)))
  | _ => Ok (current_version ++ ".1")
  end.

Definition increment_version (current_version : string) : result string :=
  match increment_body current_version with
  | Raise ValueError => Ok (current_version ++ ".1")
  | r => r
  end.

(** ** File names and patterns *)

(** [Path(name).stem]: the name without its last suffix. *)
Fixpoint rindex (c : ascii) (s : string) : option nat :=
  match s with
  | EmptyString => None
  | String x s' =>
      match rindex c s' with
      | Some i => Some (S i)
      | None => if Ascii.eqb x c then Some 0%nat else None
      end
  end.

Definition stem (name : string) : string :=
  match rindex "." name with
  | Some i =>
      if ((0 <? i) && (i <? String.length name - 1))%nat
      then String.substring 0 i name
      else name
  | None => name
  end.

(** The patterns of [Path.glob] within one directory, as [fnmatch] documents
    them: [*] matches any run of characters, [?] one character, [[seq]] one
    character of [seq], [[!seq]] one character not in [seq]; a [[] that no
    []] closes stands for itself. In [seq] a [lo-hi] is a range; a range whose
    ends are out of order is dropped, and when that leaves a [!] in front, the
    class is negated ([class_token]). *)
Inductive class_item : Type :=
  | Single (c : ascii)
  | Range (lo hi : ascii).

Inductive token : Type :=
  | Star
  | AnyChar
  | Class (negated : bool) (items : list class_item)
  | Char (c : ascii).

Fixpoint class_items (body : string) : list class_item :=
  match body with
  | String c (String "-" (String h rest)) => Range c h :: class_items rest
  | String c rest => Single c :: class_items rest
  | EmptyString => []
  end.

Definition in_item (c : ascii) (i : class_item) : bool :=
  match i with
  | Single x => Ascii.eqb x c
  | Range lo hi =>
      (N_of_ascii lo <=? N_of_ascii c)%N && (N_of_ascii c <=? N_of_ascii hi)%N
  end.

Definition reversed (i : class_item) : bool :=
  match i with
  | Single _ => false
  | Range lo hi => (N_of_ascii hi <? N_of_ascii lo)%N
  end.

Fixpoint strip_reversed (items : list class_item) : list class_item :=
  match items with
  | i :: rest => if reversed i then strip_reversed rest else items
  | [] => []
  end.

Definition class_token (negated : bool) (body : string) : token :=
  let items := class_items body in
  if negated then Class true items
  else
    match items, strip_reversed items with
    | Range _ _ :: _, Single "!" :: rest => Class true rest
    | Range _ _ :: _, Range "!" hi :: rest =>
        Class true (Single "-" :: Single hi :: rest)
    | _, _ => Class false items
    end.

(** The text up to the first []], and what follows it. *)
Fixpoint until_bracket (s : string) : option (string * string) :=
  match s with
  | EmptyString => None
  | String "]" r => Some (EmptyString, r)
  | String c r =>
      match until_bracket r with
      | Some (b, r') => Some (String c b, r')
      | None => None
      end
  end.

(** After a [[]: whether the class is negated, its body, and the rest of the
    pattern; a []] that comes first belongs to the body. *)
Definition read_class (s : string) : option (bool * string * string) :=
  let '(negated, s1) :=
    match s with
    | String "!" r => (true, r)
    | _ => (false, s)
    end in
  match s1 with
  | String "]" r =>
      match until_bracket r with
      | Some (b, r') => Some (negated, String "]" b, r')
      | None => None
      end
  | _ =>
      match until_bracket s1 with
      | Some (b, r') => Some (negated, b, r')
      | None => None
      end
  end.

Fixpoint tokens_fuel (fuel : nat) (pat : string) : list token :=
  match fuel, pat with
  | S fuel', String "*" r => Star :: tokens_fuel fuel' r
  | S fuel', String "?" r => AnyChar :: tokens_fuel fuel' r
  | S fuel', String "[" r =>
      match read_class r with
      | Some (negated, body, rest) =>
          class_token negated body :: tokens_fuel fuel' rest
      | None => Char "[" :: tokens_fuel fuel' r
      end
  | S fuel', String c r => Char c :: tokens_fuel fuel' r
  | _, _ => []
  end.

Definition tokens (pat : string) : list token :=
  tokens_fuel (String.length pat) pat.

Fixpoint match_tokens (ts : list token) (name : string) : bool :=
  match ts with
  | [] =>
      match name with
      | EmptyString => true
      | _ => false
      end
  | Star :: ts' =>
      (fix star (s : string) : bool :=
         match_tokens ts' s
         || match s with
            | String _ s' => star s'
            | EmptyString => false
            end) name
  | AnyChar :: ts' =>
      match name with
      | String _ s' => match_tokens ts' s'
      | EmptyString => false
      end
  | Class negated items :: ts' =>
      match name with
      | String c s' =>
          xorb negated (existsb (in_item c) items) && match_tokens ts' s'
      | EmptyString => false
      end
  | Char x :: ts' =>
      match name with
      | String c s' => Ascii.eqb x c && match_tokens ts' s'
      | EmptyString => false
      end
  end.

Definition fnmatch (name pat : string) : bool := match_tokens (tokens pat) name.

(** A file name addresses an entry of the directory itself. The store covers
    the rubrics directory and its [versions] directory, so its operations
    are modelled for names of one path component: a name with a [/]
    addresses an entry of another directory, and a write to it fails here,
    as it does in the code when that directory is not there. Where it is
    there (["versions/y"], ["./y"], ["../x"]) the code writes into it; the
    properties that depend on where a write lands are stated for file names
    without a [/]. *)
Fixpoint valid_name (name : string) : bool :=
  match name with
  | EmptyString => true
  | String c r => negb (Ascii.eqb c "/") && valid_name r
  end.

(** ** The rubric store *)

(** What a file holds: a JSON document, or text that [json.load] rejects. *)
Inductive file : Type :=
  | Json (v : value)
  | Garbage.

(** The rubrics directory: its files by name, and the [versions] directory
    inside it when there is one. Both hold regular files only. *)
Record rubrics_dir : Type := RubricsDir {
  files : gmap string file;
  versions : option (gmap string file)
}.

(** The file system under [get_rubrics_dir()]: [None] when the directory is
    absent. *)
Definition store : Type := option rubrics_dir.

(** How a write can fail: not at all, before the file is opened (the file is
    left as it was), or after it was truncated (what is left does not
    parse). *)
Inductive fault : Type :=
  | NoFault
  | FailOpen
  | FailMidway.

(** What the surroundings decide during one call: the clock, the text
    [str()] gives a value that is neither a string, an integer, a boolean nor
    [None], and which of the file operations fail. *)
Record env : Type := Env {
  now : string;                  (* datetime.now().strftime("%Y%m%d_%H%M%S") *)
  str_other : value -> string;   (* str(v) for a float, a list or a dict *)
  mkdir_rubrics_fails : bool;    (* rubrics_dir.mkdir(exist_ok=True) *)
  mkdir_versions_fails : bool;   (* versions_dir.mkdir(exist_ok=True) *)
  read_fails : bool;             (* open(path, 'r') of the file loaded first *)
  copy_fault : fault;            (* shutil.copy2(rubric_path, backup_path) *)
  reread_fails : bool;           (* open(backup_path, 'r') *)
  mark_fault : fault;            (* open(backup_path, 'w') and json.dump *)
  write_fault : fault            (* open(path, 'w') and json.dump, at the end *)
}.

(** [str(v)], as an f-string formats a value. *)
Definition format_value (e : env) (v : value) : string :=
  match v with
  | VStr s => s
  | VInt n => string_of_int n
  | VBool true => "True"
  | VBool false => "False"
  | VNull => "None"
  | _ => str_other e v
  end.

(** [with open(name, 'w') as f: json.dump(content, f)] in a directory: the
    directory afterwards, and whether the write went through. *)
Definition write_file (f : fault) (name : string) (content : file)
    (d : gmap string file) : gmap string file * bool :=
  if negb (valid_name name) then (d, false)
  else
    match f with
    | NoFault => (<[name := content]> d, true)
    | FailOpen => (d, false)
    | FailMidway => (<[name := Garbage]> d, false)
    end.

(** What the store operations print. *)
Inductive message : Type :=
  | BackupCreated (backup_filename : string)
      (* "Backup created: {backup_filename} (status: archive)" *)
  | WarnNotArchived
      (* "Warning: Could not mark backup as archived: {e}" *)
  | WarnNoBackup
      (* "Warning: Could not create backup: {e}" *).

(** The error messages the store operations return. *)
Inductive store_error : Type :=
  | NotFound (path : string)     (* "Rubric file not found: {rubric_path}" *)
  | InvalidJSON (path : string)  (* "Invalid JSON in {rubric_path}: {e}" *)
  | LoadError (path : string)    (* "Error loading {rubric_path}: {e}" *)
  | SaveError (path : string)    (* "Error saving to {rubric_path}: {e}" *)
  | NoBackupFound (version : string)
                                 (* "No backup found for version {version}" *)
  | BackupLoadError              (* "Error loading backup: {e}" *)
  | RestoreError                 (* "Error restoring: {e}" *).

(** [rubrics_dir / f"{filename}.json"], as a name in the rubrics directory. *)
Definition rubric_path (filename : string) : string := filename ++ ".json".

(** [load_rubric_from_file(filename)] *)
Definition load_rubric_from_file (e : env) (filename : string) (s : store)
    : option value * option store_error :=
  match s ≫= (fun d => files d !! rubric_path filename) with
  | None => (None, Some (NotFound (rubric_path filename)))
  | Some f =>
      if read_fails e then (None, Some (LoadError (rubric_path filename)))
      else
        match f with
        | Json rubric => (Some rubric, None)
        | Garbage => (None, Some (InvalidJSON (rubric_path filename)))
        end
  end.

(** The version the backup is named after (source lines 253-258): the
    [version] of the current rubric, ["1.0"] when it has none, ["unknown"]
    when the file cannot be loaded or does not hold a mapping. *)
Definition current_version_of (e : env) (live : file) : value :=
  if read_fails e then VStr "unknown"
  else
    match live with
    | Json (VDict d) => default (VStr "1.0") (dict_get "version" d)
    | _ => VStr "unknown"
    end.

(** [f"{filename}.v{current_version}.{timestamp}.json"] *)
Definition backup_name (e : env) (filename : string) (current_version : value)
    : string :=
  filename ++ ".v" ++ format_value e current_version ++ "." ++ now e ++ ".json".

(** Marking the copy as archived (source lines 269-277): the versions
    directory afterwards and what is printed. *)
Definition mark_archived (e : env) (name : string) (ver : gmap string file)
    : gmap string file * list message :=
  if reread_fails e then (ver, [WarnNotArchived])
  else
    match ver !! name with
    | Some (Json (VDict backup_rubric)) =>
        let archived :=
          Json (VDict (dict_set "status" (VStr "archive") backup_rubric)) in
        match write_file (mark_fault e) name archived ver with
        | (ver', true) => (ver', [BackupCreated name])
        | (ver', false) => (ver', [WarnNotArchived])
        end
    | _ => (ver, [WarnNotArchived])
    end.

(** The backup step of [save_rubric_to_file] (source lines 243-280), run
    when a backup is asked for and the current file exists. *)
Definition backup_step (e : env) (filename : string) (s : rubrics_dir)
    : rubrics_dir * list message :=
  match versions s, mkdir_versions_fails e with
  | None, true => (s, [WarnNoBackup])
  | ver0, _ =>
      let ver := default ∅ ver0 in
      match files s !! rubric_path filename with
      | None => (RubricsDir (files s) (Some ver), [WarnNoBackup])
      | Some live =>
          let name := backup_name e filename (current_version_of e live) in
          match write_file (copy_fault e) name live ver with
          | (ver', false) =>
              (RubricsDir (files s) (Some ver'), [WarnNoBackup])
          | (ver', true) =>
              let '(ver'', out) := mark_archived e name ver' in
              (RubricsDir (files s) (Some ver''), out)
          end
      end
  end.

(** [save_rubric_to_file(rubric, filename, create_backup)]: the store
    afterwards, what was printed, and the pair returned or the exception of
    the first [mkdir]. *)
Definition save_rubric_to_file (e : env) (rubric : value) (filename : string)
    (create_backup : bool) (s : store)
    : store * list message * result (bool * option store_error) :=
  match s, mkdir_rubrics_fails e with
  | None, true => (s, [], Raise OSError)
  | s0, _ =>
      let d := default (RubricsDir ∅ None) s0 in
      let '(d1, out) :=
        if create_backup
           && bool_decide (is_Some (files d !! rubric_path filename))
        then backup_step e filename d
        else (d, []) in
      let '(files', written) :=
        write_file (write_fault e) (rubric_path filename) (Json rubric)
          (files d1) in
      (Some (RubricsDir files' (versions d1)), out,
       Ok (if written then (true, None)
           else (false, Some (SaveError (rubric_path filename)))))
  end.

(** Whether a pattern has [**] inside its one component: [Path.glob] then
    raises [ValueError], before it looks at the directory. *)
Definition double_star (pat : string) : bool := is_substring "**" pat.

(** The entries of a directory a pattern of one path component selects, in
    the order the directory is scanned; a pattern with a [/] would select
    from another directory. *)
Definition glob (pat : string) (d : gmap string file) : list (string * file) :=
  List.filter (fun nf => fnmatch nf.1 pat) (map_to_list d).

(** [restore_rubric_version(filename, version)]: the store afterwards and
    the pair returned, or the exception that escapes: the [ValueError] of
    [versions_dir.glob] for a pattern with [**] (source line 402, outside
    any [try]), or the [TypeError] of [rubric['status'] = 'current'] on a
    backup that does not hold a mapping. *)
Definition restore_rubric_version (e : env) (filename version : string)
    (s : store) : store * result (bool * option store_error) :=
  let pattern := filename ++ ".v" ++ version ++ ".*.json" in
  if double_star pattern then (s, Raise ValueError)
  else
    let found :=
      match s ≫= versions with
      | Some ver => glob pattern ver
      | None => []
      end in
    match s, found with
    | Some d, (_, backup) :: _ =>
        if read_fails e then (s, Ok (false, Some BackupLoadError))
        else
          match backup with
          | Garbage => (s, Ok (false, Some BackupLoadError))
          | Json (VDict rubric) =>
              let restored :=
                Json (VDict (dict_set "status" (VStr "current") rubric)) in
              let '(files', written) :=
                write_file (write_fault e) (rubric_path filename) restored
                  (files d) in
              (Some (RubricsDir files' (versions d)),
               Ok (if written then (true, None)
                   else (false, Some RestoreError)))
          | Json _ => (s, Raise TypeError)
          end
    | _, _ => (s, Ok (false, Some (NoBackupFound version)))
    end.

(** [v == s] for what [d.get(k)] returned ([None] when the key is absent)
    and a string [s]. *)
Definition equals_str (v : option value) (s : string) : bool :=
  match v with
  | Some (VStr t) => String.eqb t s
  | _ => false
  end.

(** An entry of the list of available rubrics. *)
Record entry : Type := Entry {
  filename : string;
  name : value;
  description : value
}.

(** The built-in entry (source lines 333-337). *)
Definition sample_entry : entry :=
  Entry "sample-rubric" (VStr "Sample Rubric") (VStr "Built-in sample rubric").

(** The body of the loop of [list_available_rubrics] (source lines 315-329):
    the entry a file contributes, if any. Whatever is raised on the way skips
    the file. The files of the store are taken to be readable here: one
    that cannot be opened would be skipped like one that does not parse. *)
Definition entry_of (nf : string * file) : option entry :=
  match nf.2 with
  | Json rubric_data =>
      match validate_rubric rubric_data, rubric_data with
      | Ok (true, _), VDict d =>
          if equals_str (dict_get "status" d) "current"
          then Some (Entry (stem nf.1)
                       (default (VStr (stem nf.1)) (dict_get "name" d))
                       (default (VStr "No description available")
                          (dict_get "description" d)))
          else None
      | _, _ => None
      end
  | Garbage => None
  end.

(** [sorted(rubrics_dir.glob("*.json"))]: paths of one directory sort by
    name. *)
Definition sorted_glob (pat : string) (d : gmap string file)
    : list (string * file) :=
  merge_sort (fun a b => String.le a.1 b.1) (glob pat d).

(** [list_available_rubrics()] *)
Definition list_available_rubrics (s : store) : list entry :=
  let available :=
    match s with
    | Some d => omap entry_of (sorted_glob "*.json" (files d))
    | None => []
    end in
  if existsb (fun r => String.eqb (filename r) "sample-rubric") available
  then available
  else sample_entry :: available.

(** ** What the properties speak of *)

(** The points a criterion declares, as the validator reads them:
    [int(criterion["max_points"])]. *)
Definition criterion_points (criterion : value) : result Z :=
  bind (getitem criterion "max_points") to_int.

(** The sum of the points of a list of criteria. *)
Fixpoint criteria_points (criteria : list value) : result Z :=
  match criteria with
  | [] => Ok 0
  | criterion :: rest =>
      bind (criterion_points criterion) (fun p =>
      bind (criteria_points rest) (fun s => Ok (p + s)))
  end.

(** A category whose declared [max_points] equals the sum of the points of
    its criteria. *)
Definition points_consistent (category : value) : Prop :=
  exists criteria pts declared,
    getitem category "criteria" = Ok (VList criteria)
    /\ criteria_points criteria = Ok pts
    /\ getitem category "max_points" = Ok declared
    /\ int_eq pts declared = true.

(** The weight of a category or of a flat criterion, as the validator reads
    it: [float(item["weight"])]. *)
Definition weight_of (item : value) : result float :=
  bind (getitem item "weight") to_float.

Fixpoint weights_of (items : list value) : result (list float) :=
  match items with
  | [] => Ok []
  | item :: rest =>
      bind (weight_of item) (fun w =>
      bind (weights_of rest) (fun ws => Ok (w :: ws)))
  end.

(** The sum of a list of floats, added from the left starting at [0.0]. *)
Definition float_sum (ws : list float) : float :=
  fold_left PrimFloat.add ws 0%float.

(** The items that carry the top-level weights: the categories of a
    hierarchical rubric, the criteria of a flat one. *)
Definition top_level_items (rubric : value) : option (list value) :=
  match rubric with
  | VDict d =>
      match dict_get "categories" d with
      | Some (VList l) => Some l
      | Some _ => None
      | None =>
          match dict_get "criteria" d with
          | Some (VList l) => Some l
          | _ => None
          end
      end
  | _ => None
  end.

(** Whether a string has a dot. *)
Fixpoint has_dot (s : string) : bool :=
  match s with
  | EmptyString => false
  | String c s' => Ascii.eqb c "." || has_dot s'
  end.

(** A string without the characters [Path.glob] reads as wildcards and
    without a path separator. *)
Fixpoint plain (s : string) : bool :=
  match s with
  | EmptyString => true
  | String c s' =>
      negb (Ascii.eqb c "*" || Ascii.eqb c "?" || Ascii.eqb c "["
            || Ascii.eqb c "/")
      && plain s'
  end.

(** An environment in which no file operation fails. *)
Definition no_fault (e : env) : Prop :=
  mkdir_rubrics_fails e = false
  /\ mkdir_versions_fails e = false
  /\ read_fails e = false
  /\ copy_fault e = NoFault
  /\ reread_fails e = false
  /\ mark_fault e = NoFault
  /\ write_fault e = NoFault.

(** *** Sample data *)

Definition quiet (timestamp : string) : env :=
  Env timestamp (fun _ => "") false false false NoFault false NoFault NoFault.

Definition criterion (id : string) (max_points : value) : value :=
  VDict [("criterion_id", VStr id); ("label", VStr id); ("desc", VStr id);
         ("max_points", max_points)].

Definition category (id : string) (weight max_points : value)
    (criteria : list value) : value :=
  VDict [("category_id", VStr id); ("label", VStr id); ("weight", weight);
         ("max_points", max_points); ("criteria", VList criteria)].

Definition common_fields : dict :=
  [("scale", VDict [("min", VInt 0); ("max", VInt 50)]);
   ("overall_method", VStr "total_points");
   ("thresholds", VDict [("pass", VInt 35); ("revise", VInt 25)])].

Definition hierarchical (categories : list value) : value :=
  VDict (("categories", VList categories) :: common_fields).

Definition flat_criterion (id : string) (weight : value) : value :=
  VDict [("id", VStr id); ("label", VStr id); ("desc", VStr id);
         ("weight", weight)].

Definition flat (criteria : list value) : value :=
  VDict (("criteria", VList criteria) :: common_fields).

(** Two categories of 30 and 20 points with weights 0.6 and 0.4. *)
Definition good_rubric : value :=
  hierarchical
    [category "content" (VFloat 0.6) (VInt 30)
       [criterion "clarity" (VInt 10); criterion "depth" (VInt 20)];
     category "delivery" (VFloat 0.4) (VInt 20)
       [criterion "pace" (VInt 20)]].

(** A flat rubric with weights 0.5 and 0.5. *)
Definition good_flat_rubric : value :=
  flat [flat_criterion "a" (VFloat 0.5); flat_criterion "b" (VFloat 0.5)].

(** A valid hierarchical rubric that also has a [criteria] key. *)
Definition both_keys_rubric : value :=
  VDict (("categories",
          VList [category "content" (VInt 1) (VInt 10)
                   [criterion "clarity" (VInt 10)]])
         :: ("criteria", VList []) :: common_fields).

(** A category declaring 10 points whose criteria sum to 8. *)
Definition mismatch_rubric : value :=
  hierarchical
    [category "a" (VInt 1) (VInt 10)
       [criterion "x" (VInt 4); criterion "y" (VInt 4)]].

(** A category declaring 4 points whose criteria declare 2.5 and 2.5. *)
Definition fractional_rubric : value :=
  hierarchical
    [category "a" (VInt 1) (VInt 4)
       [criterion "x" (VFloat 2.5); criterion "y" (VFloat 2.5)]].

(** Category weights 0.5 and 0.4. *)
Definition light_rubric : value :=
  hierarchical
    [category "a" (VFloat 0.5) (VInt 10) [criterion "x" (VInt 10)];
     category "b" (VFloat 0.4) (VInt 5) [criterion "y" (VInt 5)]].

(** Flat criterion weights 0.5 and 0.4. *)
Definition light_flat_rubric : value :=
  flat [flat_criterion "a" (VFloat 0.5); flat_criterion "b" (VFloat 0.4)].

(** A category whose [max_points] is the float infinity, as [json.load]
    reads [1e999] or [Infinity]. *)
Definition infinite_points_rubric : value :=
  hierarchical
    [category "a" (VInt 1) (VFloat infinity) [criterion "x" (VInt 10)]].

(** A category whose weight is the integer [10 ** 400]. *)
Definition huge_weight_rubric : value :=
  hierarchical
    [category "a" (VInt (10 ^ 400)) (VInt 10) [criterion "x" (VInt 10)]].

(** A list of categories that holds a number. *)
Definition number_category_rubric : value := hierarchical [VInt 5].

(** Two versions of a rubric, and one whose version has a bracket. *)
Definition rubric_v (version name : string) : value :=
  VDict [("name", VStr name); ("version", VStr version)].

(** An environment in which copying the current file fails. *)
Definition copy_fails (timestamp : string) : env :=
  Env timestamp (fun _ => "") false false false FailOpen false NoFault NoFault.

(** ** The versions of a rubric: [list_rubric_versions] *)

(** [s.endswith(suffix)] *)
Fixpoint ends_with (suffix s : string) : bool :=
  String.eqb s suffix
  || match s with
     | String _ s' => ends_with suffix s'
     | EmptyString => false
     end.

(** [s[1:]] *)
Definition drop_first (s : string) : string :=
  match s with
  | String _ r => r
  | EmptyString => EmptyString
  end.

(** An item of the list of versions. *)
Module Version.
Record info : Type := Info {
  version : value;
  filename : string;
  type : string;
  timestamp : string
}.
End Version.

(** The item the current file contributes (source lines 354-366): none when
    the file is absent, cannot be read, or does not hold a mapping. *)
Definition current_info (e : env) (filename : string) (d : rubrics_dir)
    : list Version.info :=
  match files d !! rubric_path filename with
  | None => []
  | Some f =>
      if read_fails e then []
      else
        match f with
        | Json (VDict rubric) =>
            [Version.Info (default (VStr "1.0") (dict_get "version" rubric))
               (rubric_path filename) "current" "current"]
        | _ => []
        end
  end.

(** The item a backup file contributes (source lines 371-387): it is read
    off the name of the file, which is never opened. *)
Definition backup_info (nf : string * file) : option Version.info :=
  match split "." (stem nf.1) with
  | _ :: part :: minor_version :: timestamp :: _ =>
      if String.prefix "v" part
      then Some (Version.Info
                   (VStr (drop_first part ++ "." ++ minor_version))
                   nf.1 "backup" timestamp)
      else None
  | _ => None
  end.

(** [list_rubric_versions(filename)]: the list returned, or the
    [ValueError] of [versions_dir.glob] for a pattern with [**], which
    escapes when the versions directory is there (source line 370, outside
    the [try] of the loop). *)
Definition list_rubric_versions (e : env) (filename : string) (s : store)
    : result (list Version.info) :=
  let filename :=
    if ends_with ".json" filename
    then String.substring 0 (String.length filename - 5) filename
    else filename in
  match s with
  | None => Ok []
  | Some d =>
      let current := current_info e filename d in
      match versions d with
      | Some ver =>
          let pattern := filename ++ ".v*.json" in
          if double_star pattern then Raise ValueError
          else Ok (current
                   ++ omap backup_info (reverse (sorted_glob pattern ver)))%list
      | None => Ok current
      end
  end.

(** The pattern tokens of a text without wildcards. *)
Fixpoint chars (s : string) : list token :=
  match s with
  | EmptyString => []
  | String c r => Char c :: chars r
  end.

(** A valid hierarchical rubric marked as current. *)
Definition current_fields : dict :=
  ("status", VStr "current") :: ("name", VStr "Demo")
  :: ("categories",
      VList [category "content" (VInt 1) (VInt 10)
               [criterion "clarity" (VInt 10)]])
  :: common_fields.

(** Whether two ids are the same member of a set of ids: equal, or both
    the NaN of the document. *)
Definition same_id (a b : value) : bool :=
  key_eq a b || is_nan_value a && is_nan_value b.

(** No item of the list has the id, under [key], of an item before it. *)
Definition distinct_ids (key : string) (items : list value) : Prop :=
  forall j k item_j item_k id_j id_k,
    (k < j)%nat ->
    items !! j = Some item_j -> items !! k = Some item_k ->
    getitem item_j key = Ok id_j -> getitem item_k key = Ok id_k ->
    same_id id_j id_k = false.

(** What the loop over the categories checked of the numbers of one
    category. *)
Definition category_numbers_ok (c : value) : Prop :=
  exists w p criteria,
    weight_of c = Ok w
    /\ PrimFloat.ltb w 0 = false /\ PrimFloat.ltb 1 w = false
    /\ bind (getitem c "max_points") to_int = Ok p /\ 0 < p
    /\ getitem c "criteria" = Ok (VList criteria) /\ criteria <> []
    /\ Forall (fun cr => exists q, criterion_points cr = Ok q /\ 0 < q)
         criteria.

(** [increment_version] applied [k] times in a row. *)
Fixpoint increment_times (k : nat) (v : string) : result string :=
  match k with
  | O => Ok v
  | S k' => bind (increment_version v) (increment_times k')
  end.

(** * Properties *)

(** ** Steps of the validator *)

Lemma bind_Ok {A B : Type} (r : result A) (k : A -> result B) (b : B) :
  bind r k = Ok b -> exists a, r = Ok a /\ k a = Ok b.
Proof. destruct r as [a|x]; simpl; [eauto | discriminate]. Qed.

Lemma mbind_Pass {A B : Type} (k : A -> check B) (c : check A) (b : B) :
  c ≫= k = Pass b -> exists a, c = Pass a /\ k a = Pass b.
Proof. destruct c as [a|r|x]; simpl; [eauto | discriminate..]. Qed.

Lemma eval_Pass {A : Type} (r : result A) (a : A) : eval r = Pass a -> r = Ok a.
Proof. destruct r; simpl; congruence. Qed.

Lemma try_number_Pass {A : Type} (e : result A) (r : reason) (a : A) :
  try_number e r = Pass a -> e = Ok a.
Proof. destruct e as [?|[]]; simpl; congruence. Qed.

Lemma reject_if_Pass (cond : bool) (r : reason) (u : unit) :
  reject_if cond r = Pass u -> cond = false.
Proof. destruct cond; simpl; congruence. Qed.

Lemma nonempty_list_Pass (v : value) (r : reason) (l : list value) :
  nonempty_list v r = Pass l -> v = VList l /\ l <> [].
Proof.
  destruct v as [| | | | |[|x l']|]; simpl; try discriminate.
  intros [= <-]. split; [reflexivity | discriminate].
Qed.

(** Peels the first bind of a hypothesis [c ≫= k = Pass _]. *)
Tactic Notation "pass_inv" hyp(H) "as" ident(a) ident(Ha) :=
  apply mbind_Pass in H as (a & Ha & H).

(** ** The loops of the validator *)

Lemma check_criterion_Pass cid j criterion st st' :
  check_criterion cid j criterion st = Pass st' ->
  exists p, criterion_points criterion = Ok p /\ st'.2 = st.2 + p.
Proof.
  destruct st as [seen pts]. unfold check_criterion. intros H.
  pass_inv H as u1 H1. pass_inv H as crid H2. pass_inv H as dup H3.
  pass_inv H as u2 H4. pass_inv H as p H5. pass_inv H as u3 H6.
  apply try_number_Pass in H5. injection H as <-. eauto.
Qed.

Lemma check_criteria_Pass cid criteria : forall j st st',
  check_criteria cid j criteria st = Pass st' ->
  exists pts, criteria_points criteria = Ok pts /\ st'.2 = st.2 + pts.
Proof.
  induction criteria as [|c rest IH]; simpl; intros j st st' H.
  - injection H as <-. exists 0. split; [reflexivity | lia].
  - pass_inv H as st1 H1. apply check_criterion_Pass in H1 as (p & Hp & H1).
    apply IH in H as (s & Hs & H). exists (p + s). rewrite Hp, Hs. simpl.
    split; [reflexivity | lia].
Qed.

Lemma check_category_Pass i category st st' :
  check_category i category st = Pass st' ->
  points_consistent category
  /\ exists w, weight_of category = Ok w /\ st'.2 = (st.2 + w)%float.
Proof.
  destruct st as [seen total]. unfold check_category. intros H.
  pass_inv H as u1 H1. pass_inv H as cid H2. pass_inv H as dup H3.
  pass_inv H as u2 H4. pass_inv H as w H5. pass_inv H as u3 H6.
  pass_inv H as mp H7. pass_inv H as u4 H8. pass_inv H as raw H9.
  pass_inv H as criteria H10. pass_inv H as st1 H11.
  destruct st1 as [seen' pts].
  pass_inv H as declared H12. pass_inv H as u5 H13.
  apply try_number_Pass in H5. apply eval_Pass in H9, H12.
  apply nonempty_list_Pass in H10 as [-> _].
  apply check_criteria_Pass in H11 as (s & Hs & Hpts). simpl in Hpts.
  apply reject_if_Pass in H13. injection H as <-. split.
  - exists criteria, s, declared.
    rewrite Hpts, negb_false_iff in H13. auto.
  - exists w. auto.
Qed.

Lemma check_categories_Pass categories : forall i st st',
  check_categories i categories st = Pass st' ->
  Forall points_consistent categories
  /\ exists ws, weights_of categories = Ok ws
                /\ st'.2 = fold_left PrimFloat.add ws st.2.
Proof.
  induction categories as [|c rest IH]; simpl; intros i st st' H.
  - injection H as <-. split; [constructor | exists []; auto].
  - pass_inv H as st1 H1.
    apply check_category_Pass in H1 as (Hc & w & Hw & H1).
    apply IH in H as (Hrest & ws & Hws & H). split; [constructor; auto|].
    exists (w :: ws). rewrite Hw, Hws. simpl. rewrite H, H1. auto.
Qed.

Lemma check_legacy_criterion_Pass i criterion st st' :
  check_legacy_criterion i criterion st = Pass st' ->
  exists w, weight_of criterion = Ok w /\ st'.2 = (st.2 + w)%float.
Proof.
  destruct st as [seen total]. unfold check_legacy_criterion. intros H.
  pass_inv H as u1 H1. pass_inv H as crid H2. pass_inv H as dup H3.
  pass_inv H as u2 H4. pass_inv H as w H5. pass_inv H as u3 H6.
  apply try_number_Pass in H5. injection H as <-. eauto.
Qed.

Lemma check_legacy_criteria_Pass criteria : forall i st st',
  check_legacy_criteria i criteria st = Pass st' ->
  exists ws, weights_of criteria = Ok ws
             /\ st'.2 = fold_left PrimFloat.add ws st.2.
Proof.
  induction criteria as [|c rest IH]; simpl; intros i st st' H.
  - injection H as <-. exists []; auto.
  - pass_inv H as st1 H1.
    apply check_legacy_criterion_Pass in H1 as (w & Hw & H1).
    apply IH in H as (ws & Hws & H).
    exists (w :: ws). rewrite Hw, Hws. simpl. rewrite H, H1. auto.
Qed.

(** ** Accepted rubrics *)

Lemma getitem_Ok (v : value) (k : string) (x : value) :
  getitem v k = Ok x -> exists d, v = VDict d /\ dict_get k d = Some x.
Proof.
  destruct v; simpl; try discriminate.
  destruct (dict_get k d) eqn:E; [|discriminate]. intros [= ->]. eauto.
Qed.

Lemma validate_rubric_accepts (rubric : value) (o : option reason) :
  validate_rubric rubric = Ok (true, o) ->
  o = None /\ check_rubric rubric = Pass tt.
Proof.
  unfold validate_rubric. destruct (check_rubric rubric) as [[]|r|x]; [|discriminate..].
  intros [= <-]. auto.
Qed.

Lemma validate_rubric_of_check (rubric : value) :
  validate_rubric rubric
  = match check_rubric rubric with
    | Pass _ => Ok (true, None)
    | Reject r => Ok (false, Some r)
    | Throw e => Raise e
    end.
Proof. reflexivity. Qed.

Lemma weight_sum_in_range (total : float) :
  weight_sum_off total = false ->
  PrimFloat.leb 0.99 total = true /\ PrimFloat.leb total 1.01 = true.
Proof.
  unfold weight_sum_off. rewrite negb_false_iff, andb_true_iff. auto.
Qed.

(** An accepted rubric with a [categories] key passed the hierarchical
    branch, and its categories passed the loop. *)
Lemma accepted_categories (rubric : value) (categories : list value) :
  getitem rubric "categories" = Ok (VList categories) ->
  check_rubric rubric = Pass tt ->
  exists st, check_categories 0 categories ([], 0%float) = Pass st
             /\ weight_sum_off st.2 = false.
Proof.
  intros Hget H. apply getitem_Ok in Hget as (d & -> & Hd).
  unfold check_rubric in H. simpl in H. unfold dict_has in H. rewrite Hd in H.
  simpl in H. pass_inv H as u1 H1. clear H. unfold check_new_format in H1.
  pass_inv H1 as u2 H2. pass_inv H1 as raw H3. pass_inv H1 as cats H4.
  pass_inv H1 as st H5. destruct st as [seen total].
  apply eval_Pass in H3. simpl in H3. rewrite Hd in H3. injection H3 as <-.
  apply nonempty_list_Pass in H4 as [[= <-] _].
  apply reject_if_Pass in H1. eauto.
Qed.

(** An accepted rubric without a [categories] key passed the flat branch. *)
Lemma accepted_criteria (rubric : value) :
  contains rubric "categories" = Ok false ->
  check_rubric rubric = Pass tt ->
  exists d criteria st,
    rubric = VDict d /\ dict_get "criteria" d = Some (VList criteria)
    /\ check_legacy_criteria 0 criteria ([], 0%float) = Pass st
    /\ weight_sum_off st.2 = false.
Proof.
  intros Hc H. unfold check_rubric in H. rewrite Hc in H. simpl in H.
  pass_inv H as old H0. pass_inv H as u0 H0'. pass_inv H as u1 H1. clear H.
  unfold check_old_format in H1.
  pass_inv H1 as u2 H2. pass_inv H1 as raw H3. pass_inv H1 as crits H4.
  pass_inv H1 as st H5. destruct st as [seen total].
  apply eval_Pass, getitem_Ok in H3 as (d & -> & Hd).
  apply nonempty_list_Pass in H4 as [-> _].
  apply reject_if_Pass in H1. exists d, crits, (seen, total). auto.
Qed.

Lemma criteria_points_integers (criteria : list value) (ns : list Z) :
  Forall2 (fun c n => getitem c "max_points" = Ok (VInt n)) criteria ns ->
  criteria_points criteria = Ok (fold_right Z.add 0 ns).
Proof.
  induction 1 as [|c n cs ns Hc _ IH]; simpl; [reflexivity|].
  unfold criterion_points. rewrite Hc. simpl. rewrite IH. reflexivity.
Qed.

(** ** Points and weights of accepted rubrics *)

(** C2 fails on the code: a category that declares 4 points with two
    criteria that declare 2.5 points each is accepted, although 2.5 + 2.5 is
    not 4. The validator means to accept integers only (its messages say
    "must be a positive integer"), but [int()] truncates a float instead of
    refusing it, so it sums [int(2.5) = 2] twice. *)
Lemma fractional_points_accepted :
  fractional_rubric
  = hierarchical
      [category "a" (VInt 1) (VInt 4)
         [criterion "x" (VFloat 2.5); criterion "y" (VFloat 2.5)]]
  /\ validate_rubric fractional_rubric = Ok (true, None)
  /\ key_eq (VInt 4) (VFloat (2.5 + 2.5)) = false.
Proof. repeat split; vm_compute; reflexivity. Qed.

(** What the check of the points does establish: [validate_rubric] accepts a
    hierarchical rubric only if, for every category, the declared
    [max_points] is equal, without tolerance, to the sum of its criteria's
    [max_points] each converted with [int()] (which is their plain sum when
    they are integers); a category that declares 10 points with criteria
    summing to 8 is rejected with the sum-mismatch message. *)
Theorem category_points_match_sum :
  (forall rubric categories,
     getitem rubric "categories" = Ok (VList categories) ->
     validate_rubric rubric = Ok (true, None) ->
     Forall points_consistent categories)
  /\ (forall criteria ns,
        Forall2 (fun c n => getitem c "max_points" = Ok (VInt n)) criteria ns ->
        criteria_points criteria = Ok (fold_right Z.add 0 ns))
  /\ validate_rubric mismatch_rubric
     = Ok (false, Some (PointsSumMismatch (VStr "a") (VInt 10) 8)).
Proof.
  split; [|split].
  - intros rubric categories Hget Hv.
    apply validate_rubric_accepts in Hv as [_ Hc].
    destruct (accepted_categories _ _ Hget Hc) as (st & Hst & _).
    apply check_categories_Pass in Hst. tauto.
  - apply criteria_points_integers.
  - vm_compute. reflexivity.
Qed.

Lemma category_points_match_sum_witness :
  Forall points_consistent
    [category "content" (VFloat 0.6) (VInt 30)
       [criterion "clarity" (VInt 10); criterion "depth" (VInt 20)];
     category "delivery" (VFloat 0.4) (VInt 20)
       [criterion "pace" (VInt 20)]].
Proof.
  apply (proj1 category_points_match_sum good_rubric); vm_compute; reflexivity.
Defined.

(** C3: [validate_rubric] accepts a rubric of either format only if the sum
    of its top-level weights (of the categories, or of the criteria of a flat
    rubric) lies in [0.99, 1.01]; when the items pass their own checks and
    the sum lies outside, the rubric is rejected with the weight-sum message,
    as with the weights 0.5 and 0.4. *)
Theorem top_level_weights_sum_to_one :
  (forall rubric,
     validate_rubric rubric = Ok (true, None) ->
     exists items ws,
       top_level_items rubric = Some items
       /\ weights_of items = Ok ws
       /\ PrimFloat.leb 0.99 (float_sum ws) = true
       /\ PrimFloat.leb (float_sum ws) 1.01 = true)
  /\ (forall d categories st ws,
        all_in ["categories"; "scale"; "overall_method"; "thresholds"] (VDict d)
        = Ok true ->
        dict_get "categories" d = Some (VList categories) ->
        categories <> [] ->
        check_categories 0 categories ([], 0%float) = Pass st ->
        weights_of categories = Ok ws ->
        weight_sum_off (float_sum ws) = true ->
        validate_rubric (VDict d)
        = Ok (false, Some (CategoryWeightSum (float_sum ws))))
  /\ (forall d criteria st ws,
        dict_has "categories" d = false ->
        all_in ["criteria"; "scale"; "overall_method"; "thresholds"] (VDict d)
        = Ok true ->
        dict_get "criteria" d = Some (VList criteria) ->
        criteria <> [] ->
        check_legacy_criteria 0 criteria ([], 0%float) = Pass st ->
        weights_of criteria = Ok ws ->
        weight_sum_off (float_sum ws) = true ->
        validate_rubric (VDict d)
        = Ok (false, Some (CriterionWeightSum (float_sum ws))))
  /\ validate_rubric light_rubric
     = Ok (false, Some (CategoryWeightSum (0.5 + 0.4)))
  /\ validate_rubric light_flat_rubric
     = Ok (false, Some (CriterionWeightSum (0.5 + 0.4))).
Proof.
  split; [|split; [|split; [|split]]].
  - intros rubric Hv. apply validate_rubric_accepts in Hv as [_ Hc].
    destruct (contains rubric "categories") as [[|]|x] eqn:Hnew.
    + assert (exists l, getitem rubric "categories" = Ok (VList l)) as [l Hl].
      { unfold check_rubric in Hc. rewrite Hnew in Hc. simpl in Hc.
        pass_inv Hc as old H0. pass_inv Hc as u1 H1.
        unfold check_new_format in H1. pass_inv H1 as u2 H2.
        pass_inv H1 as raw H3. pass_inv H1 as cats H4.
        apply eval_Pass in H3. apply nonempty_list_Pass in H4 as [-> _]. eauto. }
      destruct (accepted_categories rubric l Hl Hc) as (st & Hst & Hoff).
      apply check_categories_Pass in Hst as (_ & ws & Hws & Hsum).
      apply getitem_Ok in Hl as (d & -> & Hd).
      exists l, ws. simpl in *. rewrite Hd. unfold float_sum. rewrite <- Hsum.
      apply weight_sum_in_range in Hoff. tauto.
    + destruct (accepted_criteria _ Hnew Hc) as (d & l & st & -> & Hd & Hst & Hoff).
      apply check_legacy_criteria_Pass in Hst as (ws & Hws & Hsum).
      exists l, ws. simpl in *. unfold dict_has in Hnew.
      destruct (dict_get "categories" d); [discriminate|]. rewrite Hd.
      unfold float_sum. rewrite <- Hsum.
      apply weight_sum_in_range in Hoff. tauto.
    + unfold check_rubric in Hc. rewrite Hnew in Hc. discriminate.
  - intros d categories st ws Hall Hd Hne Hst Hws Hoff.
    assert (dict_has "categories" d = true) as Hhas
      by (unfold dict_has; rewrite Hd; reflexivity).
    rewrite validate_rubric_of_check. unfold check_rubric. simpl.
    rewrite Hhas. simpl.
    unfold check_new_format, require_keys. rewrite Hall. simpl. rewrite Hd. simpl.
    destruct categories as [|c cs]; [congruence|].
    simpl nonempty_list. cbn [mbind check_bind].
    destruct (check_categories_Pass _ _ _ _ Hst) as (_ & ws' & Hws' & Hsum).
    rewrite Hws in Hws'. injection Hws' as <-.
    rewrite Hst. destruct st as [seen total]. simpl in Hsum. subst total.
    cbn [mbind check_bind]. fold (float_sum ws). rewrite Hoff. reflexivity.
  - intros d criteria st ws Hnew Hall Hd Hne Hst Hws Hoff.
    assert (dict_has "criteria" d = true) as Hhas
      by (unfold dict_has; rewrite Hd; reflexivity).
    rewrite validate_rubric_of_check. unfold check_rubric. simpl.
    rewrite Hnew, Hhas. simpl.
    unfold check_old_format, require_keys. rewrite Hall. simpl. rewrite Hd. simpl.
    destruct criteria as [|c cs]; [congruence|].
    simpl nonempty_list. cbn [mbind check_bind].
    destruct (check_legacy_criteria_Pass _ _ _ _ Hst) as (ws' & Hws' & Hsum).
    rewrite Hws in Hws'. injection Hws' as <-.
    rewrite Hst. destruct st as [seen total]. simpl in Hsum. subst total.
    cbn [mbind check_bind]. fold (float_sum ws). rewrite Hoff. reflexivity.
  - vm_compute. reflexivity.
  - vm_compute. reflexivity.
Qed.

Lemma top_level_weights_sum_to_one_witness :
  exists items ws,
    top_level_items good_rubric = Some items
    /\ weights_of items = Ok ws
    /\ PrimFloat.leb 0.99 (float_sum ws) = true
    /\ PrimFloat.leb (float_sum ws) 1.01 = true.
Proof.
  apply (proj1 top_level_weights_sum_to_one good_rubric). vm_compute. reflexivity.
Defined.

(** ** What the validator never rejects with *)

Lemma not_reject_bind {A B : Type} (r0 : reason) (c : check A) (k : A -> check B) :
  c <> Reject r0 -> (forall a, k a <> Reject r0) -> c ≫= k <> Reject r0.
Proof. destruct c as [a|r|x]; simpl; [auto | congruence..]. Qed.

Lemma not_reject_eval {A : Type} (r0 : reason) (e : result A) :
  eval e <> Reject r0.
Proof. destruct e; discriminate. Qed.

Lemma not_reject_try {A : Type} (r0 r : reason) (e : result A) :
  r <> r0 -> try_number e r <> Reject r0.
Proof. destruct e as [?|[]]; simpl; congruence. Qed.

Lemma not_reject_if (r0 r : reason) (cond : bool) :
  r <> r0 -> reject_if cond r <> Reject r0.
Proof. destruct cond; simpl; congruence. Qed.

Lemma not_reject_keys (r0 : reason) keys v (f : list string -> reason) :
  (forall m, f m <> r0) -> require_keys keys v f <> Reject r0.
Proof.
  intros Hf. unfold require_keys.
  destruct (all_in keys v) as [[|]|x]; simpl; try discriminate.
  destruct (missing_of keys v); simpl; [|discriminate].
  intros [= H]. exact (Hf _ H).
Qed.

Lemma not_reject_nonempty (r0 r : reason) (v : value) :
  r <> r0 -> nonempty_list v r <> Reject r0.
Proof. destruct v as [| | | | |[|]|]; simpl; congruence. Qed.

(** Goes through a sequence of steps none of which rejects with the reason
    at hand. *)
Ltac no_reject :=
  repeat first
    [ apply not_reject_eval
    | apply not_reject_try; discriminate
    | apply not_reject_if; discriminate
    | apply not_reject_keys; intros; discriminate
    | apply not_reject_nonempty; discriminate
    | apply not_reject_bind; [|intros]
    | match goal with
      | |- context [let '(_, _) := ?p in _] => destruct p
      | |- Pass _ <> Reject _ => discriminate
      end ].

Lemma check_criteria_not_NoFormatKey cid criteria : forall j st,
  check_criteria cid j criteria st <> Reject NoFormatKey.
Proof.
  induction criteria as [|c rest IH]; simpl; intros j st; [discriminate|].
  apply not_reject_bind; [|intros; apply IH].
  unfold check_criterion. no_reject.
Qed.

Lemma check_categories_not_NoFormatKey categories : forall i st,
  check_categories i categories st <> Reject NoFormatKey.
Proof.
  induction categories as [|c rest IH]; simpl; intros i st; [discriminate|].
  apply not_reject_bind; [|intros; apply IH].
  unfold check_category. no_reject. apply check_criteria_not_NoFormatKey.
Qed.

Lemma check_legacy_criteria_not_NoFormatKey criteria : forall i st,
  check_legacy_criteria i criteria st <> Reject NoFormatKey.
Proof.
  induction criteria as [|c rest IH]; simpl; intros i st; [discriminate|].
  apply not_reject_bind; [|intros; apply IH].
  unfold check_legacy_criterion. no_reject.
Qed.

Lemma check_bounds_not_NoFormatKey v lo hi first r1 r2 r3 r4 :
  r1 <> NoFormatKey -> r2 <> NoFormatKey -> r3 <> NoFormatKey ->
  r4 <> NoFormatKey ->
  check_bounds v lo hi first r1 r2 r3 r4 <> Reject NoFormatKey.
Proof.
  intros H1 H2 H3 H4. unfold check_bounds. destruct v; try congruence.
  apply not_reject_bind; [apply not_reject_if; auto | intros _].
  apply not_reject_bind; [apply not_reject_try; auto | intros a].
  apply not_reject_bind; [apply not_reject_try; auto | intros b].
  destruct (String.eqb first lo); apply not_reject_if; auto.
Qed.

(** ** The format of a rubric *)

Lemma dict_get_set_ne (k k' : string) (v : value) (d : dict) :
  k <> k' -> dict_get k (dict_set k' v d) = dict_get k d.
Proof.
  intros Hne. induction d as [|[k0 v0] d IH]; simpl.
  - destruct (String.eqb_spec k k'); congruence.
  - destruct (String.eqb_spec k' k0) as [->|Hk0]; simpl.
    + destruct (String.eqb_spec k k0); congruence.
    + destruct (String.eqb_spec k k0); auto.
Qed.


Lemma dict_has_set_ne (k k' : string) (v : value) (d : dict) :
  k <> k' -> dict_has k (dict_set k' v d) = dict_has k d.
Proof. intros. unfold dict_has. rewrite dict_get_set_ne; auto. Qed.

(** C1, as stated, fails: a rubric with both keys is validated as a
    hierarchical one, and this one is accepted. *)
Lemma both_keys_accepted :
  contains both_keys_rubric "categories" = Ok true
  /\ contains both_keys_rubric "criteria" = Ok true
  /\ validate_rubric both_keys_rubric = Ok (true, None).
Proof. repeat split; vm_compute; reflexivity. Qed.

(** C1, amended: [validate_rubric] fails with the reason "must have either
    categories or criteria" exactly when the rubric dictionary has neither
    key; a rubric with the [categories] key is validated as a hierarchical
    one whatever it holds under [criteria], so one with both keys is not
    rejected for that. *)
Theorem format_key_required :
  (forall d,
     validate_rubric (VDict d) = Ok (false, Some NoFormatKey)
     <-> dict_has "categories" d = false /\ dict_has "criteria" d = false)
  /\ (forall d v,
        dict_has "categories" d = true ->
        validate_rubric (VDict (dict_set "criteria" v d))
        = validate_rubric (VDict d)).
Proof.
  split.
  - intros d. rewrite validate_rubric_of_check. unfold check_rubric. simpl.
    destruct (dict_has "categories" d) eqn:Hnew;
      destruct (dict_has "criteria" d) eqn:Hold; simpl.
    1-3: split; [|intros []; discriminate].
    1-3: intros H; exfalso; revert H.
    1-3: match goal with
         | |- match ?c with _ => _ end = _ -> False =>
             assert (c <> Reject NoFormatKey) as Hc;
               [|destruct c; congruence]
         end.
    1-3: apply not_reject_bind;
         [ first [ unfold check_new_format | unfold check_old_format ];
           no_reject;
           first [ apply check_categories_not_NoFormatKey
                 | apply check_legacy_criteria_not_NoFormatKey ]
         | intros _; no_reject; apply check_bounds_not_NoFormatKey; discriminate ].
    split; auto.
  - intros d v Hnew.
    assert (check_new_format (VDict (dict_set "criteria" v d))
            = check_new_format (VDict d)) as Hformat.
    { unfold check_new_format, require_keys.
      cbn [all_in contains missing_of getitem missing_keys List.filter].
      rewrite !dict_has_set_ne by discriminate.
      rewrite (dict_get_set_ne "categories") by discriminate. reflexivity. }
    assert (forall k, k <> "criteria" ->
              getitem (VDict (dict_set "criteria" v d)) k = getitem (VDict d) k)
      as Hget.
    { intros k Hk. cbn [getitem]. rewrite dict_get_set_ne by assumption.
      reflexivity. }
    rewrite !validate_rubric_of_check. unfold check_rubric.
    cbn [contains eval].
    rewrite (dict_has_set_ne "categories") by discriminate.
    rewrite Hnew, (Hget "scale"), (Hget "thresholds") by discriminate.
    cbn [mbind check_bind negb andb reject_if].
    rewrite Hformat. reflexivity.
Qed.

(** ** Exceptions that escape the validator *)

(** C9 fails on the code: [validate_rubric] catches [TypeError] and
    [ValueError] around its numeric conversions, but [int()] of an infinite
    float and [float()] of an integer beyond the float range raise
    [OverflowError], and a category that is not a mapping raises [TypeError]
    outside any [try]; these exceptions escape. *)
Theorem validate_rubric_can_raise :
  validate_rubric infinite_points_rubric = Raise OverflowError
  /\ validate_rubric huge_weight_rubric = Raise OverflowError
  /\ validate_rubric number_category_rubric = Raise TypeError.
Proof. repeat split; vm_compute; reflexivity. Qed.

(** ** Versions *)

Lemma split_no_dot (s : string) : has_dot s = false -> split "." s = [s].
Proof.
  induction s as [|c s IH]; simpl; [reflexivity|].
  rewrite orb_false_iff. intros [Hc Hs]. rewrite Hc, (IH Hs). reflexivity.
Qed.

(** C4: [increment_version] maps "1.0" to "1.1" and "2.9" to "2.10"; a
    string without a dot (such as "v"), or whose second dot-separated part
    does not parse as an integer, gets ".1" appended; otherwise the second
    part is incremented; and no string makes it raise. *)
Theorem increment_version_spec :
  increment_version "1.0" = Ok "1.1"
  /\ increment_version "2.9" = Ok "2.10"
  /\ increment_version "v" = Ok "v.1"
  /\ (forall s, has_dot s = false -> increment_version s = Ok (s ++ ".1"))
  /\ (forall s major minor rest,
        split "." s = major :: minor :: rest ->
        int_of_string minor = None ->
        increment_version s = Ok (s ++ ".1"))
  /\ (forall s major minor rest n,
        split "." s = major :: minor :: rest ->
        int_of_string minor = Some n ->
        increment_version s = Ok (major ++ "." ++ string_of_int (n + 1)))
  /\ (forall s, exists s', increment_version s = Ok s').
Proof.
  repeat split; try (vm_compute; reflexivity).
  - intros s Hs. unfold increment_version, increment_body.
    rewrite (split_no_dot s Hs). reflexivity.
  - intros s major minor rest Hs Hm. unfold increment_version, increment_body.
    rewrite Hs. simpl. rewrite Hm. reflexivity.
  - intros s major minor rest n Hs Hm. unfold increment_version, increment_body.
    rewrite Hs. simpl. rewrite Hm. reflexivity.
  - intros s. unfold increment_version, increment_body.
    destruct (split "." s) as [|major [|minor rest]]; simpl; eauto.
    destruct (int_of_string minor); simpl; eauto.
Qed.

(** ** Writing and reading files *)

Lemma write_file_ok f name content d d' :
  write_file f name content d = (d', true) ->
  f = NoFault /\ valid_name name = true /\ d' = <[name := content]> d.
Proof.
  unfold write_file. destruct (valid_name name); simpl; [|discriminate].
  destruct f; intros [= <-]; auto.
Qed.

Lemma write_file_NoFault name content d :
  valid_name name = true ->
  write_file NoFault name content d = (<[name := content]> d, true).
Proof. intros H. unfold write_file. rewrite H. reflexivity. Qed.

Lemma valid_name_app (a b : string) :
  valid_name (a ++ b) = valid_name a && valid_name b.
Proof.
  induction a as [|c a IH]; simpl; [reflexivity|].
  rewrite IH, andb_assoc. reflexivity.
Qed.

(** The backup step never touches the files of the rubrics directory. *)
Lemma backup_step_files e fname d : files (backup_step e fname d).1 = files d.
Proof.
  unfold backup_step.
  destruct (versions d) as [ver|], (mkdir_versions_fails e);
    destruct (files d !! rubric_path fname) as [live|]; simpl; try reflexivity.
  all: destruct (write_file _ _ live _) as [ver' []]; simpl; try reflexivity.
  all: destruct (mark_archived _ _ ver') as [ver'' out]; reflexivity.
Qed.

(** C5: when [save_rubric_to_file(r, x)] reports success, a following
    [load_rubric_from_file(x)] whose read does not fail returns [r] itself,
    with no field added or changed. *)
Theorem save_then_load e e' rubric fname create_backup s s' out :
  save_rubric_to_file e rubric fname create_backup s = (s', out, Ok (true, None)) ->
  read_fails e' = false ->
  load_rubric_from_file e' fname s' = (Some rubric, None).
Proof.
  intros Hsave Hread. unfold save_rubric_to_file in Hsave.
  assert (exists d1 files',
            write_file (write_fault e) (rubric_path fname) (Json rubric) (files d1)
            = (files', true)
            /\ s' = Some (RubricsDir files' (versions d1)))
    as (d1 & files' & Hw & ->).
  { destruct s as [d|], (mkdir_rubrics_fails e); try discriminate.
    all: match type of Hsave with
         | (let '(_, _) := ?b in _) = _ => destruct b as [d1 out1]
         end.
    all: destruct (write_file _ _ _ (files d1)) as [files' []] eqn:Hw;
         [|discriminate].
    all: injection Hsave as <- _; eauto. }
  apply write_file_ok in Hw as (_ & _ & ->).
  unfold load_rubric_from_file. simpl. rewrite lookup_insert_eq, Hread.
  reflexivity.
Qed.

Lemma save_then_load_witness :
  load_rubric_from_file (quiet "20250101_120000") "x"
    (Some (RubricsDir {["x.json" := Json good_rubric]} None))
  = (Some good_rubric, None).
Proof.
  apply (save_then_load (quiet "20250101_120000") (quiet "20250101_120000")
           good_rubric "x" true None _ []); reflexivity.
Defined.

(** ** The backup step *)

Lemma backup_step_no_fault e fname d live :
  no_fault e ->
  files d !! rubric_path fname = Some (Json (VDict live)) ->
  let version := default (VStr "1.0") (dict_get "version" live) in
  let name := fname ++ ".v" ++ format_value e version ++ "." ++ now e ++ ".json" in
  valid_name name = true ->
  backup_step e fname d
  = (RubricsDir (files d)
       (Some (<[name := Json (VDict (dict_set "status" (VStr "archive") live))]>
                (default ∅ (versions d)))),
     [BackupCreated name]).
Proof.
  intros (_ & Hmk & Hrd & Hcp & Hrr & Hmark & _) Hlive version name Hname.
  unfold backup_step. rewrite Hmk, Hlive.
  unfold current_version_of. rewrite Hrd. fold version.
  unfold backup_name. fold name. rewrite Hcp.
  destruct (versions d) as [ver|]; simpl.
  all: rewrite (write_file_NoFault _ _ _ Hname).
  all: unfold mark_archived; rewrite Hrr, lookup_insert_eq, Hmark.
  all: rewrite (write_file_NoFault _ _ _ Hname), insert_insert_eq.
  all: reflexivity.
Qed.

(** C8: the backup step of [save_rubric_to_file] never changes a file of the
    rubrics directory, the live file included; when no file operation fails
    and the live file holds a rubric, it writes under the versions directory
    a copy named [{filename}.v{version}.{timestamp}.json] (version ["1.0"]
    when the rubric has none) whose [status] is ["archive"], and the save
    then replaces the live file, and only it, with the new rubric. *)
Theorem backup_keeps_live_file :
  (forall e fname d, files (backup_step e fname d).1 = files d)
  /\ (forall e fname d live rubric,
        no_fault e ->
        files d !! rubric_path fname = Some (Json (VDict live)) ->
        let version := default (VStr "1.0") (dict_get "version" live) in
        let name :=
          fname ++ ".v" ++ format_value e version ++ "." ++ now e ++ ".json" in
        let archived :=
          Json (VDict (dict_set "status" (VStr "archive") live)) in
        valid_name name = true ->
        backup_step e fname d
        = (RubricsDir (files d)
             (Some (<[name := archived]> (default ∅ (versions d)))),
           [BackupCreated name])
        /\ save_rubric_to_file e rubric fname true (Some d)
           = (Some (RubricsDir (<[rubric_path fname := Json rubric]> (files d))
                      (Some (<[name := archived]> (default ∅ (versions d))))),
              [BackupCreated name], Ok (true, None))).
Proof.
  split; [apply backup_step_files|].
  intros e fname d live rubric Hnf Hlive version name archived Hname.
  pose proof (backup_step_no_fault e fname d live Hnf Hlive Hname) as Hb.
  split; [exact Hb|].
  unfold save_rubric_to_file. simpl. rewrite Hlive.
  rewrite bool_decide_true by eauto. simpl.
  fold version name archived in Hb. rewrite Hb.
  destruct Hnf as (_ & _ & _ & _ & _ & _ & Hw). rewrite Hw.
  rewrite write_file_NoFault; [reflexivity|].
  unfold name in Hname. rewrite valid_name_app, andb_true_iff in Hname.
  unfold rubric_path. rewrite valid_name_app, (proj1 Hname). reflexivity.
Qed.

Lemma backup_keeps_live_file_witness :
  backup_step (quiet "20250101_120000") "x"
    (RubricsDir {["x.json" := Json (VDict [("version", VStr "1.0")])]} None)
  = (RubricsDir {["x.json" := Json (VDict [("version", VStr "1.0")])]}
       (Some (<["x.v1.0.20250101_120000.json" :=
                 Json (VDict [("version", VStr "1.0");
                              ("status", VStr "archive")])]> ∅)),
     [BackupCreated "x.v1.0.20250101_120000.json"]).
Proof.
  refine (proj1 (proj2 backup_keeps_live_file (quiet "20250101_120000") "x"
                   (RubricsDir
                      {["x.json" := Json (VDict [("version", VStr "1.0")])]} None)
                   [("version", VStr "1.0")] VNull _ _ _)).
  - repeat split.
  - reflexivity.
  - reflexivity.
Defined.


(** When an operation of the backup step fails, the step prints a warning. *)
Lemma backup_step_failure_warns e fname d :
  (versions d = None /\ mkdir_versions_fails e = true)
  \/ copy_fault e <> NoFault
  \/ reread_fails e = true
  \/ mark_fault e <> NoFault
  \/ (forall live, files d !! rubric_path fname <> Some (Json (VDict live))) ->
  (backup_step e fname d).2 = [WarnNoBackup]
  \/ (backup_step e fname d).2 = [WarnNotArchived].
Proof.
  intros H. unfold backup_step.
  destruct (versions d) as [ver0|], (mkdir_versions_fails e); simpl; auto.
  all: destruct (files d !! rubric_path fname) as [live|] eqn:Hlive; simpl; auto.
  all: destruct (write_file (copy_fault e) _ live _) as [ver' []] eqn:Hcopy;
       simpl; auto.
  all: apply write_file_ok in Hcopy as (Hcp & _ & ->).
  all: unfold mark_archived; destruct (reread_fails e) eqn:Hrr; simpl; auto.
  all: rewrite lookup_insert_eq.
  all: destruct live as [[]|]; simpl; auto.
  all: destruct (write_file (mark_fault e) _ _ _) as [ver'' []] eqn:Hmark;
       simpl; auto.
  all: apply write_file_ok in Hmark as (Hmk & _ & ->).
  all: exfalso; destruct H as [[? ?]|[?|[?|[?|H]]]]; try congruence.
  all: eapply H; reflexivity.
Qed.

(** C10: whatever fails in the backup step of [save_rubric_to_file] is
    answered by a printed warning, never by an exception or an early return:
    the step leaves the rubrics directory as it was, and when the final
    write succeeds the canonical file holds the new rubric and the save
    returns [(True, None)], so a save can report success although no backup
    was created. *)
Theorem save_survives_backup_failure :
  (forall e fname d,
     files (backup_step e fname d).1 = files d
     /\ ((versions d = None /\ mkdir_versions_fails e = true)
         \/ copy_fault e <> NoFault
         \/ reread_fails e = true
         \/ mark_fault e <> NoFault
         \/ (forall live, files d !! rubric_path fname <> Some (Json (VDict live))) ->
         (backup_step e fname d).2 = [WarnNoBackup]
         \/ (backup_step e fname d).2 = [WarnNotArchived]))
  /\ (forall e rubric fname create_backup s,
        (s = None -> mkdir_rubrics_fails e = false) ->
        write_fault e = NoFault ->
        valid_name (rubric_path fname) = true ->
        exists d' out,
          save_rubric_to_file e rubric fname create_backup s
          = (Some d', out, Ok (true, None))
          /\ files d' !! rubric_path fname = Some (Json rubric))
  /\ save_rubric_to_file (copy_fails "20250101_120000") good_rubric "x" true
       (Some (RubricsDir {["x.json" := Json good_flat_rubric]} None))
     = (Some (RubricsDir {["x.json" := Json good_rubric]} (Some ∅)),
        [WarnNoBackup], Ok (true, None)).
Proof.
  split; [|split].
  - intros e fname d. split;
      [apply backup_step_files | apply backup_step_failure_warns].
  - intros e rubric fname cb s Hmk Hw Hname. unfold save_rubric_to_file.
    assert (forall (d : rubrics_dir),
              exists d' out,
                (let '(d1, out) :=
                   if cb && bool_decide (is_Some (files d !! rubric_path fname))
                   then backup_step e fname d else (d, []) in
                 let '(files', written) :=
                   write_file (write_fault e) (rubric_path fname) (Json rubric)
                     (files d1) in
                 (Some (RubricsDir files' (versions d1)), out,
                  Ok (if written then (true, None)
                      else (false, Some (SaveError (rubric_path fname))))))
                = (Some d', out, Ok (true, None))
                /\ files d' !! rubric_path fname = Some (Json rubric)) as Hgo.
    { intros d.
      destruct (if cb && bool_decide (is_Some (files d !! rubric_path fname))
                then backup_step e fname d else (d, [])) as [d1 out].
      rewrite Hw, (write_file_NoFault _ _ _ Hname).
      eexists _, _. split; [reflexivity|]. simpl. apply lookup_insert_eq. }
    destruct s as [d|]; [|rewrite (Hmk eq_refl)]; apply Hgo.
  - reflexivity.
Qed.

Lemma save_survives_backup_failure_witness :
  exists d' out,
    save_rubric_to_file (copy_fails "20250101_120000") good_rubric "x" true
      (Some (RubricsDir {["x.json" := Json good_flat_rubric]} None))
    = (Some d', out, Ok (true, None))
    /\ files d' !! "x.json" = Some (Json good_rubric).
Proof.
  refine (proj1 (proj2 save_survives_backup_failure)
            (copy_fails "20250101_120000") good_rubric "x" true
            (Some (RubricsDir {["x.json" := Json good_flat_rubric]} None))
            _ _ _).
  - discriminate.
  - reflexivity.
  - reflexivity.
Defined.

(** ** Restoring a version *)

(** C6 fails on the code: [restore_rubric_version] looks the backup up with
    the pattern [{filename}.v{version}.*.json] without escaping the version.
    For a first rubric whose version is ["[1]"] the backup is written as
    [x.v[1].{timestamp}.json], but the pattern [x.v[1].*.json] reads [[1]] as
    a character class and only matches names that start with [x.v1.]: the
    restore finds no backup and the current file keeps the second rubric. *)
Theorem restore_misses_bracket_version :
  let r1 := rubric_v "[1]" "first" in
  let r2 := rubric_v "2.0" "second" in
  let s1 := (save_rubric_to_file (quiet "20250101_120000") r1 "x" true None).1.1 in
  let s2 := (save_rubric_to_file (quiet "20250102_090000") r2 "x" true s1).1.1 in
  s2 = Some (RubricsDir {["x.json" := Json r2]}
               (Some {["x.v[1].20250102_090000.json" :=
                        Json (VDict [("name", VStr "first");
                                     ("version", VStr "[1]");
                                     ("status", VStr "archive")])]}))
  /\ restore_rubric_version (quiet "20250103_100000") "x" "[1]" s2
     = (s2, Ok (false, Some (NoBackupFound "[1]")))
  /\ load_rubric_from_file (quiet "20250103_100000") "x" s2 = (Some r2, None).
Proof. repeat split; vm_compute; reflexivity. Qed.

(** ** The list of available rubrics *)

Lemma equals_str_true (v : option value) (s : string) :
  equals_str v s = true -> v = Some (VStr s).
Proof.
  destruct v as [[]|]; simpl; try discriminate.
  intros H. apply String.eqb_eq in H. congruence.
Qed.

Lemma entry_of_Some nf r :
  entry_of nf = Some r ->
  exists fields,
    nf.2 = Json (VDict fields)
    /\ validate_rubric (VDict fields) = Ok (true, None)
    /\ dict_get "status" fields = Some (VStr "current")
    /\ filename r = stem nf.1.
Proof.
  unfold entry_of. destruct nf.2 as [data|]; [|discriminate].
  destruct (validate_rubric data) as [[[] o]|] eqn:Hv; try discriminate.
  destruct data as [| | | | | |fields]; try discriminate.
  destruct (equals_str _ _) eqn:Hs; [|discriminate].
  intros [= <-]. apply validate_rubric_accepts in Hv as Ho.
  destruct Ho as [-> _]. apply equals_str_true in Hs. eauto.
Qed.

Lemma elem_of_sorted_glob nf pat d :
  nf ∈ sorted_glob pat d -> d !! nf.1 = Some nf.2 /\ fnmatch nf.1 pat = true.
Proof.
  unfold sorted_glob, glob. rewrite merge_sort_Permutation.
  rewrite list_elem_of_In, filter_In, <- list_elem_of_In.
  destruct nf as [n f]. rewrite elem_of_map_to_list. auto.
Qed.

(** C7: whatever the store directory holds, and also when it is absent, the
    list [list_available_rubrics] returns has an entry whose filename is
    ["sample-rubric"], and every other entry is the stem of a [*.json] file
    of the directory that holds a rubric which [validate_rubric] accepts and
    whose [status] is ["current"]; a file that is invalid or not marked
    current gives no entry. *)
Theorem available_rubrics_spec (s : store) :
  (exists r, r ∈ list_available_rubrics s /\ filename r = "sample-rubric")
  /\ (forall r,
        r ∈ list_available_rubrics s ->
        filename r <> "sample-rubric" ->
        exists d fname fields,
          s = Some d
          /\ files d !! fname = Some (Json (VDict fields))
          /\ fnmatch fname "*.json" = true
          /\ stem fname = filename r
          /\ validate_rubric (VDict fields) = Ok (true, None)
          /\ dict_get "status" fields = Some (VStr "current")).
Proof.
  unfold list_available_rubrics.
  set (available := match s with
                    | Some d => omap entry_of (sorted_glob "*.json" (files d))
                    | None => []
                    end).
  assert (forall r, r ∈ available ->
            exists d fname fields,
              s = Some d
              /\ files d !! fname = Some (Json (VDict fields))
              /\ fnmatch fname "*.json" = true
              /\ stem fname = filename r
              /\ validate_rubric (VDict fields) = Ok (true, None)
              /\ dict_get "status" fields = Some (VStr "current")) as Hfile.
  { intros r Hr. subst available. destruct s as [d|]; [|inversion Hr].
    apply list_elem_of_omap in Hr as (nf & Hnf & Hentry).
    apply elem_of_sorted_glob in Hnf as [Hlook Hmatch].
    apply entry_of_Some in Hentry as (fields & Hjson & Hvalid & Hstatus & Hname).
    rewrite Hjson in Hlook. exists d, nf.1, fields. auto 10. }
  destruct (existsb _ available) eqn:Hsample.
  - split; [|auto]. apply existsb_exists in Hsample as (r & Hr & Heq).
    exists r. rewrite list_elem_of_In. apply String.eqb_eq in Heq. auto.
  - split.
    + exists sample_entry. split; [left | reflexivity].
    + intros r Hr Hne. apply elem_of_cons in Hr as [->|Hr]; [|auto].
      contradiction Hne. reflexivity.
Qed.

(** ** Names and patterns *)

Lemma string_app_cons (x : ascii) (a b : string) :
  String x a ++ b = String x (a ++ b).
Proof. reflexivity. Qed.

Lemma string_app_nil_r (a : string) : a ++ "" = a.
Proof.
  induction a as [|x a IH]; [reflexivity|].
  rewrite string_app_cons, IH. reflexivity.
Qed.

Lemma string_app_assoc (a b c : string) : (a ++ b) ++ c = a ++ (b ++ c).
Proof.
  induction a as [|x a IH]; [reflexivity|].
  rewrite !string_app_cons, IH. reflexivity.
Qed.

Lemma string_app_inv_head (a b c : string) : a ++ b = a ++ c -> b = c.
Proof.
  induction a as [|x a IH]; [auto|].
  rewrite !string_app_cons. intros [= H]. auto.
Qed.

Lemma string_length_app (a b : string) :
  String.length (a ++ b) = (String.length a + String.length b)%nat.
Proof.
  induction a as [|x a IH]; [reflexivity|].
  rewrite string_app_cons. simpl. rewrite IH. reflexivity.
Qed.

Lemma plain_app (a b : string) : plain (a ++ b) = plain a && plain b.
Proof.
  induction a as [|c a IH]; [reflexivity|].
  rewrite string_app_cons. simpl. rewrite IH, andb_assoc. reflexivity.
Qed.

Lemma has_dot_app (a b : string) : has_dot (a ++ b) = has_dot a || has_dot b.
Proof.
  induction a as [|c a IH]; [reflexivity|].
  rewrite string_app_cons. simpl. rewrite IH, orb_assoc. reflexivity.
Qed.

Lemma plain_valid_name (s : string) : plain s = true -> valid_name s = true.
Proof.
  induction s as [|c s IH]; simpl; [reflexivity|].
  rewrite !andb_true_iff, !negb_true_iff, !orb_false_iff.
  intros [(_ & Hc) Hs]. rewrite Hc. auto.
Qed.

(** A character that is no wildcard stands for itself in a pattern. *)
Lemma tokens_fuel_char (fuel : nat) (c : ascii) (r : string) :
  (Ascii.eqb c "*" || Ascii.eqb c "?" || Ascii.eqb c "[") = false ->
  tokens_fuel (S fuel) (String c r) = Char c :: tokens_fuel fuel r.
Proof.
  destruct c as [[] [] [] [] [] [] [] []]; try reflexivity; discriminate.
Qed.

Lemma tokens_plain (p q : string) :
  plain p = true -> tokens (p ++ q) = (chars p ++ tokens q)%list.
Proof.
  unfold tokens. induction p as [|c p IH]; [reflexivity|].
  rewrite string_app_cons. cbn [String.length plain].
  rewrite andb_true_iff, negb_true_iff, !orb_false_iff.
  intros [[[[H1 H2] H3] _] Hp].
  rewrite tokens_fuel_char by (rewrite H1, H2, H3; reflexivity).
  rewrite (IH Hp). reflexivity.
Qed.

Lemma match_tokens_chars (p s : string) (ts : list token) :
  match_tokens (chars p ++ ts) (p ++ s) = match_tokens ts s.
Proof.
  induction p as [|c p IH]; [reflexivity|].
  rewrite string_app_cons. simpl. rewrite Ascii.eqb_refl, IH. reflexivity.
Qed.

Lemma match_tokens_star (ts : list token) (a s : string) :
  match_tokens ts s = true -> match_tokens (Star :: ts) (a ++ s) = true.
Proof.
  intros H. induction a as [|c a IH].
  - simpl. destruct s; simpl in *; rewrite H; reflexivity.
  - rewrite string_app_cons. simpl in *. rewrite IH. apply orb_true_r.
Qed.

(** A name [{prefix}{middle}{suffix}] matches the pattern
    [{prefix}*{suffix}] when [prefix] and [suffix] have no wildcard. *)
Lemma fnmatch_star (prefix middle suffix : string) :
  plain prefix = true -> plain suffix = true ->
  fnmatch (prefix ++ middle ++ suffix) (prefix ++ "*" ++ suffix) = true.
Proof.
  intros Hp Hs. unfold fnmatch. rewrite (tokens_plain _ _ Hp).
  rewrite match_tokens_chars.
  change (tokens ("*" ++ suffix)) with (Star :: tokens suffix).
  apply match_tokens_star.
  rewrite <- (string_app_nil_r suffix) at 1.
  rewrite (tokens_plain _ _ Hs).
  rewrite <- (string_app_nil_r suffix) at 2.
  rewrite match_tokens_chars. reflexivity.
Qed.

(** ** Stems and dotted parts *)

Lemma rindex_app_json (x : string) :
  rindex "." (x ++ ".json") = Some (String.length x).
Proof.
  induction x as [|c x IH]; [reflexivity|].
  rewrite string_app_cons. simpl. rewrite IH. reflexivity.
Qed.

Lemma substring_app (x y : string) :
  String.substring 0 (String.length x) (x ++ y) = x.
Proof.
  induction x as [|c x IH]; [destruct y; reflexivity|].
  rewrite string_app_cons. simpl. rewrite IH. reflexivity.
Qed.

Lemma stem_json (x : string) : x <> "" -> stem (x ++ ".json") = x.
Proof.
  intros Hx. unfold stem. rewrite rindex_app_json, string_length_app.
  destruct x as [|c x]; [congruence|].
  replace ((0 <? String.length (String c x))
           && (String.length (String c x)
               <? String.length (String c x) + String.length ".json" - 1))%nat
    with true.
  - apply substring_app.
  - symmetry. apply andb_true_iff. split; apply Nat.ltb_lt; simpl; lia.
Qed.

Lemma split_dot_app (a b : string) :
  has_dot a = false -> split "." (a ++ "." ++ b) = a :: split "." b.
Proof.
  induction a as [|c a IH]; [reflexivity|].
  rewrite string_app_cons. simpl. rewrite orb_false_iff.
  intros [Hc Ha]. rewrite Hc, (IH Ha). reflexivity.
Qed.

Lemma ends_with_no_dot (s : string) :
  has_dot s = false -> ends_with ".json" s = false.
Proof.
  induction s as [|c s IH]; [reflexivity|].
  cbn [ends_with has_dot]. rewrite orb_false_iff. intros [Hc Hs].
  rewrite (IH Hs), orb_false_r.
  destruct (String.eqb_spec (String c s) ".json") as [[= -> ->]|];
    [discriminate Hc | reflexivity].
Qed.

(** ** Globbing a directory *)

Lemma elem_of_glob nf pat d :
  nf ∈ glob pat d <-> d !! nf.1 = Some nf.2 /\ fnmatch nf.1 pat = true.
Proof.
  unfold glob. rewrite list_elem_of_In, filter_In, <- list_elem_of_In.
  destruct nf as [n f]. rewrite elem_of_map_to_list. reflexivity.
Qed.

Lemma sorted_glob_elem nf pat d :
  d !! nf.1 = Some nf.2 -> fnmatch nf.1 pat = true -> nf ∈ sorted_glob pat d.
Proof.
  intros Hlook Hmatch. unfold sorted_glob. rewrite merge_sort_Permutation.
  apply elem_of_glob. auto.
Qed.

(** ** The list of versions *)

Lemma backup_info_filename nf i :
  backup_info nf = Some i -> Version.filename i = nf.1.
Proof.
  unfold backup_info.
  destruct (split "." (stem nf.1)) as [|p0 [|p1 [|p2 [|p3 rest]]]];
    try discriminate.
  destruct (String.prefix "v" p1); [|discriminate]. intros [= <-]. reflexivity.
Qed.

Lemma backup_stem (fn rest : string) :
  stem (fn ++ ".v" ++ rest ++ ".json") = fn ++ ".v" ++ rest.
Proof.
  rewrite <- (string_app_assoc ".v" rest ".json").
  rewrite <- (string_app_assoc fn (".v" ++ rest) ".json").
  apply stem_json. destruct fn; discriminate.
Qed.

(** A name [{filename}.v{a}.{b}.{tail}.json] reads as version [a.b], with
    the first dotted part of [tail] as its time stamp. *)
Lemma backup_info_dotted (fn a b tail t : string) (more : list string) (f : file) :
  has_dot fn = false -> has_dot a = false -> has_dot b = false ->
  split "." tail = t :: more ->
  let name := fn ++ ".v" ++ a ++ "." ++ b ++ "." ++ tail ++ ".json" in
  backup_info (name, f)
  = Some (Version.Info (VStr (a ++ "." ++ b)) name "backup" t).
Proof.
  intros Hfn Ha Hb Htail name. unfold backup_info, name. simpl fst.
  replace (fn ++ ".v" ++ a ++ "." ++ b ++ "." ++ tail ++ ".json")
    with (fn ++ ".v" ++ (a ++ "." ++ b ++ "." ++ tail) ++ ".json")
    by (rewrite !string_app_assoc; reflexivity).
  rewrite backup_stem.
  change (fn ++ ".v" ++ a ++ "." ++ b ++ "." ++ tail)
    with (fn ++ "." ++ ("v" ++ a) ++ "." ++ b ++ "." ++ tail).
  rewrite (split_dot_app fn _ Hfn).
  rewrite (split_dot_app ("v" ++ a)) by (rewrite has_dot_app, Ha; reflexivity).
  rewrite (split_dot_app b _ Hb), Htail.
  change (String.prefix "v" ("v" ++ a)) with (String.prefix "" a).
  destruct a; reflexivity.
Qed.

(** A name [{filename}.v{v}.{t}.json] whose [v] has no dot has too few
    parts. *)
Lemma backup_info_short (fn v t : string) (f : file) :
  has_dot fn = false -> has_dot v = false -> has_dot t = false ->
  backup_info (fn ++ ".v" ++ v ++ "." ++ t ++ ".json", f) = None.
Proof.
  intros Hfn Hv Ht. unfold backup_info. simpl fst.
  replace (fn ++ ".v" ++ v ++ "." ++ t ++ ".json")
    with (fn ++ ".v" ++ (v ++ "." ++ t) ++ ".json")
    by (rewrite !string_app_assoc; reflexivity).
  rewrite backup_stem.
  change (fn ++ ".v" ++ v ++ "." ++ t)
    with (fn ++ "." ++ ("v" ++ v) ++ "." ++ t).
  rewrite (split_dot_app fn _ Hfn).
  rewrite (split_dot_app ("v" ++ v)) by (rewrite has_dot_app, Hv; reflexivity).
  rewrite (split_no_dot t Ht). reflexivity.
Qed.

Lemma prefix_star_cons (c : ascii) (r : string) :
  Ascii.eqb c "*" = false -> String.prefix "**" (String c r) = false.
Proof.
  intros Hc. cbn [String.prefix].
  destruct (ascii_dec "*" c) as [<-|]; [discriminate Hc | reflexivity].
Qed.

(** A text without wildcards in front of a pattern adds no [**]. *)
Lemma double_star_plain (p rest : string) :
  plain p = true -> double_star (p ++ rest) = double_star rest.
Proof.
  unfold double_star. induction p as [|c p IH]; [reflexivity|].
  rewrite string_app_cons. cbn [plain is_substring].
  rewrite andb_true_iff, negb_true_iff, !orb_false_iff.
  intros [[[[Hstar _] _] _] Hp].
  rewrite (prefix_star_cons c _ Hstar), (IH Hp). reflexivity.
Qed.

Lemma double_star_backup (fn : string) :
  plain fn = true -> double_star (fn ++ ".v*.json") = false.
Proof. intros Hfn. rewrite (double_star_plain fn _ Hfn). reflexivity. Qed.

Lemma list_rubric_versions_no_dot e fn d :
  has_dot fn = false ->
  list_rubric_versions e fn (Some d)
  = match versions d with
    | Some ver =>
        if double_star (fn ++ ".v*.json") then Raise ValueError
        else Ok (current_info e fn d
                 ++ omap backup_info
                      (reverse (sorted_glob (fn ++ ".v*.json") ver)))%list
    | None => Ok (current_info e fn d)
    end.
Proof.
  intros Hfn. unfold list_rubric_versions.
  rewrite (ends_with_no_dot fn Hfn). reflexivity.
Qed.

(** A backup file whose name matches and parses is in the list. *)
Lemma backup_listed e fn d ver name f i :
  has_dot fn = false ->
  double_star (fn ++ ".v*.json") = false ->
  versions d = Some ver ->
  ver !! name = Some f ->
  fnmatch name (fn ++ ".v*.json") = true ->
  backup_info (name, f) = Some i ->
  exists l, list_rubric_versions e fn (Some d) = Ok l /\ i ∈ l.
Proof.
  intros Hfn Hstar Hver Hlook Hmatch Hinfo.
  rewrite (list_rubric_versions_no_dot e fn d Hfn), Hver, Hstar.
  eexists. split; [reflexivity|].
  apply elem_of_app. right. apply list_elem_of_omap.
  exists (name, f). split; [|exact Hinfo].
  apply elem_of_reverse. apply sorted_glob_elem; assumption.
Qed.

Lemma fnmatch_backup (fn rest : string) :
  plain fn = true ->
  fnmatch (fn ++ ".v" ++ rest ++ ".json") (fn ++ ".v*.json") = true.
Proof.
  intros Hfn.
  rewrite <- (string_app_assoc fn ".v" (rest ++ ".json")).
  change (fn ++ ".v*.json") with (fn ++ ".v" ++ "*" ++ ".json").
  rewrite <- (string_app_assoc fn ".v" ("*" ++ ".json")).
  apply fnmatch_star; [|reflexivity].
  rewrite plain_app, Hfn. reflexivity.
Qed.

Lemma dotted_backup_listed e fn a b tail t more f d ver :
  plain fn = true -> has_dot fn = false ->
  has_dot a = false -> has_dot b = false ->
  split "." tail = t :: more ->
  versions d = Some ver ->
  ver !! (fn ++ ".v" ++ a ++ "." ++ b ++ "." ++ tail ++ ".json") = Some f ->
  exists l,
    list_rubric_versions e fn (Some d) = Ok l
    /\ Version.Info (VStr (a ++ "." ++ b))
         (fn ++ ".v" ++ a ++ "." ++ b ++ "." ++ tail ++ ".json") "backup" t
       ∈ l.
Proof.
  intros Hplain Hfn Ha Hb Htail Hver Hlook.
  apply (backup_listed e fn d ver
           (fn ++ ".v" ++ a ++ "." ++ b ++ "." ++ tail ++ ".json") f);
    try assumption.
  - apply double_star_backup, Hplain.
  - replace (fn ++ ".v" ++ a ++ "." ++ b ++ "." ++ tail ++ ".json")
      with (fn ++ ".v" ++ (a ++ "." ++ b ++ "." ++ tail) ++ ".json")
      by (rewrite !string_app_assoc; reflexivity).
    apply fnmatch_backup, Hplain.
  - apply (backup_info_dotted fn a b tail t more f); assumption.
Qed.

(** X1: a file of the versions directory named
    [{filename}.v{a}.{b}.{tail}.json], where [filename], [a] and [b] have no
    dot and [filename] no wildcard, is listed by [list_rubric_versions] as a
    backup of version [a.b] whose time stamp is the text of [tail] up to its
    first dot. The file is not opened: what it holds does not matter. So the
    backup of a version [a.b.c] is listed as version [a.b] with time stamp
    [c]. *)
Theorem backup_versions_listed e fn a b tail t more f d ver :
  plain fn = true -> has_dot fn = false ->
  has_dot a = false -> has_dot b = false ->
  split "." tail = t :: more ->
  versions d = Some ver ->
  ver !! (fn ++ ".v" ++ a ++ "." ++ b ++ "." ++ tail ++ ".json") = Some f ->
  exists l,
    list_rubric_versions e fn (Some d) = Ok l
    /\ Version.Info (VStr (a ++ "." ++ b))
         (fn ++ ".v" ++ a ++ "." ++ b ++ "." ++ tail ++ ".json") "backup" t
       ∈ l.
Proof.
  intros Hplain Hfn Ha Hb Htail Hver Hlook.
  apply (backup_listed e fn d ver
           (fn ++ ".v" ++ a ++ "." ++ b ++ "." ++ tail ++ ".json") f);
    try assumption.
  - apply double_star_backup, Hplain.
  - replace (fn ++ ".v" ++ a ++ "." ++ b ++ "." ++ tail ++ ".json")
      with (fn ++ ".v" ++ (a ++ "." ++ b ++ "." ++ tail) ++ ".json")
      by (rewrite !string_app_assoc; reflexivity).
    apply fnmatch_backup, Hplain.
  - apply (backup_info_dotted fn a b tail t more f); assumption.
Qed.

Lemma backup_versions_listed_witness :
  exists l,
    list_rubric_versions (quiet "20250102_090000") "x"
      (Some (RubricsDir ∅
               (Some {["x.v1.2.3.20250101_120000.json" := Garbage]})))
    = Ok l
    /\ Version.Info (VStr "1.2") "x.v1.2.3.20250101_120000.json" "backup" "3"
       ∈ l.
Proof.
  apply (backup_versions_listed (quiet "20250102_090000") "x" "1" "2"
           "3.20250101_120000" "3" ["20250101_120000"] Garbage
           (RubricsDir ∅ (Some {["x.v1.2.3.20250101_120000.json" := Garbage]}))
           {["x.v1.2.3.20250101_120000.json" := Garbage]});
    reflexivity.
Defined.

(** X2: for a file name without a dot or a [/] and a time stamp without a
    dot (such as the save writes), a backup whose name is
    [{filename}.v{v}.{t}.json] with no dot in [v] (a version such as ["2"],
    or the ["unknown"] the save uses when the current file cannot be read)
    is in no list that [list_rubric_versions] returns, although the file is
    in the versions directory. *)
Theorem short_version_not_listed e fn v t s l i :
  valid_name fn = true -> has_dot fn = false ->
  has_dot v = false -> has_dot t = false ->
  list_rubric_versions e fn s = Ok l ->
  i ∈ l ->
  Version.filename i <> fn ++ ".v" ++ v ++ "." ++ t ++ ".json".
Proof.
  intros _ Hfn Hv Ht Hlist Hi Hname.
  destruct s as [d|]; [|injection Hlist as <-; inversion Hi].
  rewrite (list_rubric_versions_no_dot e fn d Hfn) in Hlist.
  assert (i ∈ current_info e fn d
          \/ exists ver, versions d = Some ver
                         /\ i ∈ omap backup_info
                                 (reverse (sorted_glob (fn ++ ".v*.json") ver)))
    as [Hcur|(ver & Hver & Hbak)].
  { destruct (versions d) as [ver|].
    - destruct (double_star _); [discriminate|]. injection Hlist as <-.
      apply elem_of_app in Hi as [Hi|Hi]; eauto.
    - injection Hlist as <-. auto. }
  - unfold current_info in Hcur.
    destruct (files d !! rubric_path fn) as [[[]|]|];
      try (inversion Hcur; fail).
    all: destruct (read_fails e); try (inversion Hcur; fail).
    apply list_elem_of_singleton in Hcur. subst i. simpl in Hname.
    unfold rubric_path in Hname. apply string_app_inv_head in Hname.
    discriminate.
  - apply list_elem_of_omap in Hbak as ([name f] & _ & Hinfo).
    pose proof (backup_info_filename _ _ Hinfo) as Hfile. simpl in Hfile.
    rewrite Hname in Hfile. subst name.
    rewrite backup_info_short in Hinfo by assumption. discriminate.
Qed.

Lemma short_version_not_listed_witness :
  Version.filename (Version.Info (VStr "1.0") "x.json" "current" "current")
  <> "x.vunknown.20250101_120000.json".
Proof.
  apply (short_version_not_listed (quiet "20250102_090000") "x" "unknown"
           "20250101_120000"
           (Some (RubricsDir {["x.json" := Json (rubric_v "1.0" "first")]}
                    (Some {["x.vunknown.20250101_120000.json" := Garbage]})))
           [Version.Info (VStr "1.0") "x.json" "current" "current"]);
    [reflexivity.. |].
  left.
Defined.

(** ** Saving with a backup *)

Lemma save_with_backup e fn d live rubric :
  no_fault e ->
  files d !! rubric_path fn = Some (Json (VDict live)) ->
  let name :=
    backup_name e fn (default (VStr "1.0") (dict_get "version" live)) in
  valid_name name = true ->
  save_rubric_to_file e rubric fn true (Some d)
  = (Some (RubricsDir (<[rubric_path fn := Json rubric]> (files d))
             (Some (<[name := Json (VDict (dict_set "status" (VStr "archive")
                                             live))]>
                      (default ∅ (versions d))))),
     [BackupCreated name], Ok (true, None)).
Proof.
  intros Hnf Hlive name Hname.
  pose proof (backup_step_no_fault e fn d live Hnf Hlive Hname) as Hb.
  unfold save_rubric_to_file. simpl. rewrite Hlive.
  rewrite bool_decide_true by eauto. simpl. rewrite Hb.
  destruct Hnf as (_ & _ & _ & _ & _ & _ & Hw). rewrite Hw.
  rewrite write_file_NoFault; [reflexivity|].
  unfold name, backup_name in Hname.
  rewrite valid_name_app, andb_true_iff in Hname.
  unfold rubric_path. rewrite valid_name_app, (proj1 Hname). reflexivity.
Qed.

(** X3: let a save replace a rubric whose version is [a.b], with no file
    operation failing, a file name without dot, wildcard character or [/],
    no dot in [a], [b] and the time stamp, and no [/] in the name of the
    backup. Then [list_rubric_versions] returns a list that has the backup
    with version [a.b], the name the save printed and the time stamp of the
    save; and when the saved rubric is a mapping and the current file can
    be read, the list starts with the current file and the version of the
    saved rubric (["1.0"] when it has none). *)
Theorem saved_backup_listed e e' fn d live a b rubric :
  no_fault e ->
  plain fn = true -> has_dot fn = false ->
  has_dot a = false -> has_dot b = false -> has_dot (now e) = false ->
  files d !! rubric_path fn = Some (Json (VDict live)) ->
  dict_get "version" live = Some (VStr (a ++ "." ++ b)) ->
  let name := fn ++ ".v" ++ a ++ "." ++ b ++ "." ++ now e ++ ".json" in
  valid_name name = true ->
  let s' := (save_rubric_to_file e rubric fn true (Some d)).1.1 in
  exists l,
    list_rubric_versions e' fn s' = Ok l
    /\ Version.Info (VStr (a ++ "." ++ b)) name "backup" (now e) ∈ l
    /\ (forall new,
          rubric = VDict new -> read_fails e' = false ->
          head l
          = Some (Version.Info (default (VStr "1.0") (dict_get "version" new))
                    (fn ++ ".json") "current" "current")).
Proof.
  intros Hnf Hplain Hfn Ha Hb Hnow Hlive Hversion name Hname s'.
  assert (backup_name e fn (default (VStr "1.0") (dict_get "version" live))
          = name) as Hbn.
  { rewrite Hversion. unfold backup_name, name. simpl.
    rewrite !string_app_assoc. reflexivity. }
  pose proof (save_with_backup e fn d live rubric Hnf Hlive) as Hsave.
  cbv zeta in Hsave. rewrite Hbn in Hsave. specialize (Hsave Hname).
  subst s'. rewrite Hsave. cbn [fst].
  match goal with
  | |- exists l, list_rubric_versions e' fn (Some ?d1) = _ /\ _ =>
      destruct (dotted_backup_listed e' fn a b (now e) (now e) []
                  (Json (VDict (dict_set "status" (VStr "archive") live)))
                  d1 _ Hplain Hfn Ha Hb (split_no_dot _ Hnow) eq_refl
                  (lookup_insert_eq _ _ _)) as (l & Hl & Hin)
  end.
  exists l. split; [exact Hl|]. split; [exact Hin|].
  intros new -> Hread.
  rewrite list_rubric_versions_no_dot in Hl by assumption.
  cbn [versions] in Hl. rewrite (double_star_backup fn Hplain) in Hl.
  injection Hl as <-.
  unfold current_info. cbn [files]. rewrite lookup_insert_eq, Hread.
  reflexivity.
Qed.

Lemma saved_backup_listed_witness :
  exists l,
    list_rubric_versions (quiet "20250103_100000") "x"
      (save_rubric_to_file (quiet "20250102_090000") (rubric_v "1.1" "second")
         "x" true
         (Some (RubricsDir {["x.json" := Json (rubric_v "1.0" "first")]}
                  None))).1.1
    = Ok l
    /\ Version.Info (VStr "1.0") "x.v1.0.20250102_090000.json" "backup"
         "20250102_090000" ∈ l
    /\ (forall new,
          rubric_v "1.1" "second" = VDict new ->
          read_fails (quiet "20250103_100000") = false ->
          head l
          = Some (Version.Info (default (VStr "1.0") (dict_get "version" new))
                    "x.json" "current" "current")).
Proof.
  refine (saved_backup_listed (quiet "20250102_090000")
            (quiet "20250103_100000") "x"
            (RubricsDir {["x.json" := Json (rubric_v "1.0" "first")]} None)
            [("name", VStr "first"); ("version", VStr "1.0")]
            "1" "0" (rubric_v "1.1" "second") _ _ _ _ _ _ _ _ _).
  - repeat split.
  - reflexivity.
  - reflexivity.
  - reflexivity.
  - reflexivity.
  - reflexivity.
  - reflexivity.
  - reflexivity.
  - reflexivity.
Defined.

Lemma ends_with_app (a suffix : string) : ends_with suffix (a ++ suffix) = true.
Proof.
  induction a as [|c a IH].
  - destruct suffix; simpl; rewrite ?Ascii.eqb_refl, ?String.eqb_refl;
      reflexivity.
  - rewrite string_app_cons. cbn [ends_with]. rewrite IH. apply orb_true_r.
Qed.

Lemma substring_drop_suffix (a suffix : string) :
  String.substring 0 (String.length (a ++ suffix) - String.length suffix)
    (a ++ suffix) = a.
Proof.
  rewrite string_length_app.
  replace (String.length a + String.length suffix - String.length suffix)%nat
    with (String.length a) by lia.
  apply substring_app.
Qed.

(** X4: [list_rubric_versions] accepts the name of the rubric with or
    without the [.json] extension: for a name that does not itself end in
    [.json], both give the same list. *)
Theorem versions_with_extension e fn s :
  ends_with ".json" fn = false ->
  list_rubric_versions e (fn ++ ".json") s = list_rubric_versions e fn s.
Proof.
  intros Hfn. unfold list_rubric_versions.
  rewrite ends_with_app, Hfn.
  pose proof (substring_drop_suffix fn ".json") as Hdrop.
  change (String.length ".json") with 5%nat in Hdrop.
  rewrite Hdrop. reflexivity.
Qed.

Lemma versions_with_extension_witness :
  list_rubric_versions (quiet "20250103_100000") "x.json"
    (Some (RubricsDir {["x.json" := Json (rubric_v "1.0" "first")]} None))
  = list_rubric_versions (quiet "20250103_100000") "x"
      (Some (RubricsDir {["x.json" := Json (rubric_v "1.0" "first")]} None)).
Proof.
  apply (versions_with_extension (quiet "20250103_100000") "x"). reflexivity.
Defined.

(** ** Restoring a version *)

Lemma restore_pattern_eq (fn ver : string) :
  fn ++ ".v" ++ ver ++ ".*.json" = (fn ++ ".v" ++ ver ++ ".") ++ "*" ++ ".json".
Proof. rewrite !string_app_assoc. reflexivity. Qed.

(** The backup a pattern finds first, when only one name can match. *)
Lemma glob_head pat (m : gmap string file) name f0 :
  m !! name = Some f0 ->
  fnmatch name pat = true ->
  (forall n, is_Some (m !! n) -> fnmatch n pat = true -> n = name) ->
  exists rest, glob pat m = (name, f0) :: rest.
Proof.
  intros Hlook Hmatch Honly.
  assert ((name, f0) ∈ glob pat m) as Hin by (apply elem_of_glob; auto).
  destruct (glob pat m) as [|[n f] rest] eqn:Hglob; [inversion Hin|].
  assert ((n, f) ∈ glob pat m) as Hhead by (rewrite Hglob; left).
  apply elem_of_glob in Hhead as [Hn Hm]. simpl in Hn, Hm.
  assert (n = name) as -> by (apply Honly; eauto).
  rewrite Hlook in Hn. injection Hn as <-. eauto.
Qed.

Lemma glob_nil pat (m : gmap string file) :
  glob pat m = [] <-> forall n, is_Some (m !! n) -> fnmatch n pat = false.
Proof.
  split.
  - intros Hglob n [f Hn]. destruct (fnmatch n pat) eqn:Hm; [|reflexivity].
    assert ((n, f) ∈ glob pat m) as Hin by (apply elem_of_glob; auto).
    rewrite Hglob in Hin. inversion Hin.
  - intros Hnone. destruct (glob pat m) as [|[n f] rest] eqn:Hglob; [reflexivity|].
    assert ((n, f) ∈ glob pat m) as Hhead by (rewrite Hglob; left).
    apply elem_of_glob in Hhead as [Hn Hm]. simpl in Hn, Hm.
    rewrite Hnone in Hm by eauto. discriminate.
Qed.

Lemma dict_set_set (k : string) (v w : value) (d : dict) :
  dict_set k v (dict_set k w d) = dict_set k v d.
Proof.
  induction d as [|[k0 v0] d IH]; simpl.
  - rewrite String.eqb_refl. reflexivity.
  - destruct (String.eqb_spec k k0) as [->|Hk0]; simpl.
    + rewrite String.eqb_refl. reflexivity.
    + destruct (String.eqb_spec k k0); [congruence|]. rewrite IH. reflexivity.
Qed.



(** X6: for a file name and a version without a [/], and a pattern
    [{filename}.v{version}.*.json] without [**] (which [Path.glob]
    refuses), [restore_rubric_version] answers "No backup found" exactly
    when the versions directory is absent or holds no file whose name
    matches the pattern; the store is then left as it was. *)
Theorem restore_no_backup e fn ver s :
  valid_name fn = true -> valid_name ver = true ->
  double_star (fn ++ ".v" ++ ver ++ ".*.json") = false ->
  ((forall d vdir n,
      s = Some d -> versions d = Some vdir -> is_Some (vdir !! n) ->
      fnmatch n (fn ++ ".v" ++ ver ++ ".*.json") = false)
   <-> restore_rubric_version e fn ver s
       = (s, Ok (false, Some (NoBackupFound ver)))).
Proof.
  intros _ _ Hstar. unfold restore_rubric_version. rewrite Hstar.
  destruct s as [d|]; simpl.
  2: { split; [reflexivity | discriminate]. }
  destruct (versions d) as [vdir|] eqn:Hver.
  2: { split; [reflexivity|]. intros _ d' vdir' n [= <-] Hv. congruence. }
  destruct (glob _ vdir) as [|[name backup] rest] eqn:Hglob.
  - split; [reflexivity|]. intros _ d' vdir' n [= <-] Hv.
    rewrite Hver in Hv. injection Hv as <-. apply glob_nil. exact Hglob.
  - split.
    + intros Hnone. exfalso.
      assert (glob (fn ++ ".v" ++ ver ++ ".*.json") vdir = []) as Hnil.
      { apply glob_nil. intros n Hn. apply (Hnone d vdir n); auto. }
      congruence.
    + destruct (read_fails e); [discriminate|].
      destruct backup as [[| | | | | |fields]|]; try discriminate.
      destruct (write_file _ _ _ _) as [files' []]; discriminate.
Qed.

Lemma restore_no_backup_witness :
  restore_rubric_version (quiet "20250103_100000") "x" "2.0"
    (Some (RubricsDir ∅ (Some {["x.v1.0.t.json" := Json (VDict [])]})))
  = (Some (RubricsDir ∅ (Some {["x.v1.0.t.json" := Json (VDict [])]})),
     Ok (false, Some (NoBackupFound "2.0"))).
Proof.
  apply (proj1 (restore_no_backup (quiet "20250103_100000") "x" "2.0"
                  (Some (RubricsDir ∅
                           (Some {["x.v1.0.t.json" := Json (VDict [])]})))
                  eq_refl eq_refl eq_refl)).
  intros d vdir n [= <-] [= <-] [f Hn].
  apply lookup_singleton_Some in Hn as [<- _]. reflexivity.
Defined.

(** X7: whatever [restore_rubric_version] does, it leaves the versions
    directory and every file of the rubrics directory other than
    [{filename}.json] as they were. *)
Theorem restore_frame e fn ver s :
  (restore_rubric_version e fn ver s).1 ≫= versions = s ≫= versions
  /\ forall g,
       g <> rubric_path fn ->
       (restore_rubric_version e fn ver s).1 ≫= (fun d => files d !! g)
       = s ≫= (fun d => files d !! g).
Proof.
  unfold restore_rubric_version. destruct (double_star _); [auto|].
  destruct s as [d|]; simpl; [|auto].
  destruct (versions d) as [vdir|] eqn:Hver; simpl; [|auto].
  destruct (glob _ vdir) as [|[name backup] rest]; simpl; [auto|].
  destruct (read_fails e); simpl; [auto|].
  destruct backup as [[| | | | | |fields]|]; simpl; auto.
  unfold write_file. destruct (valid_name _); simpl; [|auto].
  destruct (write_fault e); simpl; auto.
  all: split; [auto|]; intros g Hg; rewrite lookup_insert_ne; auto.
Qed.

Lemma fnmatch_restore_pattern (fn ver rest : string) :
  plain fn = true -> plain ver = true ->
  fnmatch (fn ++ ".v" ++ ver ++ "." ++ rest ++ ".json")
    (fn ++ ".v" ++ ver ++ ".*.json") = true.
Proof.
  intros Hfn Hver. rewrite restore_pattern_eq.
  replace (fn ++ ".v" ++ ver ++ "." ++ rest ++ ".json")
    with ((fn ++ ".v" ++ ver ++ ".") ++ rest ++ ".json")
    by (rewrite !string_app_assoc; reflexivity).
  apply fnmatch_star; [|reflexivity].
  rewrite !plain_app, Hfn, Hver. reflexivity.
Qed.

Lemma double_star_restore (fn ver : string) :
  plain fn = true -> plain ver = true ->
  double_star (fn ++ ".v" ++ ver ++ ".*.json") = false.
Proof.
  intros Hfn Hver. rewrite restore_pattern_eq, double_star_plain; [reflexivity|].
  rewrite !plain_app, Hfn, Hver. reflexivity.
Qed.

(** X8: a save that replaces a rubric of version [ver] makes a backup that
    [restore_rubric_version] finds again, when the file name and the version
    have no wildcard character and no other backup matches: the restore
    returns [(True, None)] and the current file then holds the rubric that
    was replaced, with [status] set to ["current"]. *)
Theorem backup_then_restore e e' fn d live ver rubric :
  no_fault e -> read_fails e' = false -> write_fault e' = NoFault ->
  plain fn = true -> plain ver = true -> valid_name (now e) = true ->
  files d !! rubric_path fn = Some (Json (VDict live)) ->
  dict_get "version" live = Some (VStr ver) ->
  (forall vdir n,
     versions d = Some vdir -> is_Some (vdir !! n) ->
     fnmatch n (fn ++ ".v" ++ ver ++ ".*.json") = false) ->
  let s1 := (save_rubric_to_file e rubric fn true (Some d)).1.1 in
  exists s2,
    restore_rubric_version e' fn ver s1 = (s2, Ok (true, None))
    /\ load_rubric_from_file e' fn s2
       = (Some (VDict (dict_set "status" (VStr "current") live)), None).
Proof.
  intros Hnf Hread Hwrite Hfn Hver Hnow Hlive Hversion Hnone s1.
  set (name := fn ++ ".v" ++ ver ++ "." ++ now e ++ ".json").
  assert (backup_name e fn (default (VStr "1.0") (dict_get "version" live))
          = name) as Hbn.
  { rewrite Hversion. reflexivity. }
  assert (valid_name fn = true) as Hvfn by (apply plain_valid_name, Hfn).
  assert (valid_name name = true) as Hname.
  { unfold name. rewrite !valid_name_app, Hvfn, Hnow.
    rewrite (plain_valid_name ver Hver). reflexivity. }
  pose proof (save_with_backup e fn d live rubric Hnf Hlive) as Hsave.
  cbv zeta in Hsave. rewrite Hbn in Hsave. specialize (Hsave Hname).
  subst s1. rewrite Hsave. cbn [fst].
  set (archived := Json (VDict (dict_set "status" (VStr "archive") live))).
  destruct (glob_head (fn ++ ".v" ++ ver ++ ".*.json")
              (<[name := archived]> (default ∅ (versions d))) name archived)
    as [rest Hglob].
  - apply lookup_insert_eq.
  - apply fnmatch_restore_pattern; assumption.
  - intros n Hn Hmatch. destruct (decide (n = name)) as [|Hne]; [assumption|].
    rewrite lookup_insert_ne in Hn by congruence.
    destruct (versions d) as [vdir|] eqn:Hvd; simpl in Hn.
    + rewrite (Hnone vdir n eq_refl Hn) in Hmatch. discriminate.
    + rewrite lookup_empty in Hn. destruct Hn; discriminate.
  - unfold restore_rubric_version.
    rewrite (double_star_restore fn ver Hfn Hver). cbn -[write_file glob].
    rewrite Hglob, Hread, Hwrite. unfold archived. cbv beta iota.
    rewrite write_file_NoFault
      by (unfold rubric_path; rewrite valid_name_app, Hvfn; reflexivity).
    eexists. split; [reflexivity|].
    unfold load_rubric_from_file. simpl. rewrite lookup_insert_eq, Hread.
    rewrite dict_set_set. reflexivity.
Qed.

Lemma backup_then_restore_witness :
  exists s2,
    restore_rubric_version (quiet "20250103_100000") "x" "1.0"
      (save_rubric_to_file (quiet "20250102_090000") (rubric_v "2.0" "second")
         "x" true
         (Some (RubricsDir {["x.json" := Json (rubric_v "1.0" "first")]} None))).1.1
    = (s2, Ok (true, None))
    /\ load_rubric_from_file (quiet "20250103_100000") "x" s2
       = (Some (VDict (dict_set "status" (VStr "current")
                         [("name", VStr "first"); ("version", VStr "1.0")])),
          None).
Proof.
  refine (backup_then_restore (quiet "20250102_090000")
            (quiet "20250103_100000") "x"
            (RubricsDir {["x.json" := Json (rubric_v "1.0" "first")]} None)
            [("name", VStr "first"); ("version", VStr "1.0")] "1.0"
            (rubric_v "2.0" "second") _ _ _ _ _ _ _ _ _).
  - repeat split.
  - reflexivity.
  - reflexivity.
  - reflexivity.
  - reflexivity.
  - reflexivity.
  - reflexivity.
  - reflexivity.
  - intros vdir n Hv. discriminate Hv.
Defined.

(** X9: the pattern of [restore_rubric_version] lets [*] run over dots, so
    a restore of version [ver] also finds the backup of a version
    [{ver}.{x}]. For a file name and a version without wildcard character
    or [/], when [{filename}.v{ver}.{x}.{t}.json] is the only file of the
    versions directory and holds a mapping, and reading it and writing the
    current file do not fail, restoring [ver] returns [(True, None)] and
    puts that backup in place as the current rubric. *)
Theorem restore_takes_longer_version e fn ver x t fields files0 :
  read_fails e = false -> write_fault e = NoFault ->
  plain fn = true -> plain ver = true ->
  let name := fn ++ ".v" ++ ver ++ "." ++ x ++ "." ++ t ++ ".json" in
  let vdir : gmap string file := {[name := Json (VDict fields)]} in
  restore_rubric_version e fn ver (Some (RubricsDir files0 (Some vdir)))
  = (Some (RubricsDir
             (<[rubric_path fn :=
                  Json (VDict (dict_set "status" (VStr "current") fields))]>
                files0)
             (Some vdir)),
     Ok (true, None)).
Proof.
  intros Hread Hwrite Hfn Hver name vdir.
  destruct (glob_head (fn ++ ".v" ++ ver ++ ".*.json") vdir name
              (Json (VDict fields))) as [rest Hglob].
  - apply lookup_singleton_eq.
  - unfold name.
    replace (fn ++ ".v" ++ ver ++ "." ++ x ++ "." ++ t ++ ".json")
      with (fn ++ ".v" ++ ver ++ "." ++ (x ++ "." ++ t) ++ ".json")
      by (rewrite !string_app_assoc; reflexivity).
    apply fnmatch_restore_pattern; assumption.
  - intros n [f Hn] _. apply lookup_singleton_Some in Hn as [Hn _]. auto.
  - unfold restore_rubric_version.
    rewrite (double_star_restore fn ver Hfn Hver). cbn -[write_file glob].
    rewrite Hglob, Hread, Hwrite.
    rewrite write_file_NoFault; [reflexivity|].
    unfold rubric_path. rewrite valid_name_app, (plain_valid_name fn Hfn).
    reflexivity.
Qed.

Lemma restore_takes_longer_version_witness :
  restore_rubric_version (quiet "20250103_100000") "x" "1"
    (Some (RubricsDir ∅
             (Some {["x.v1.0.20250102_090000.json" :=
                      Json (VDict [("version", VStr "1.0")])]})))
  = (Some (RubricsDir
             {["x.json" := Json (VDict [("version", VStr "1.0");
                                        ("status", VStr "current")])]}
             (Some {["x.v1.0.20250102_090000.json" :=
                      Json (VDict [("version", VStr "1.0")])]})),
     Ok (true, None)).
Proof.
  apply (restore_takes_longer_version (quiet "20250103_100000") "x" "1" "0"
           "20250102_090000" [("version", VStr "1.0")] ∅); reflexivity.
Defined.

(** ** What a save leaves alone *)

(** The steps of [save_rubric_to_file] when the rubrics directory is there
    or can be created. *)
Lemma save_unfold e rubric fn cb s :
  (s = None -> mkdir_rubrics_fails e = false) ->
  save_rubric_to_file e rubric fn cb s
  = (let d := default (RubricsDir ∅ None) s in
     let step :=
       if cb && bool_decide (is_Some (files d !! rubric_path fn))
       then backup_step e fn d else (d, []) in
     let written :=
       write_file (write_fault e) (rubric_path fn) (Json rubric)
         (files step.1) in
     (Some (RubricsDir written.1 (versions step.1)), step.2,
      Ok (if written.2 then (true, None)
          else (false, Some (SaveError (rubric_path fn)))))).
Proof.
  intros Hmk. unfold save_rubric_to_file.
  destruct s as [d0|]; [|rewrite (Hmk eq_refl)]; cbv zeta.
  all: destruct (if cb && _ then _ else _) as [d1 out].
  all: destruct (write_file _ _ _ _); reflexivity.
Qed.

Lemma mkdir_cases e (s : store) :
  (s = None /\ mkdir_rubrics_fails e = true)
  \/ (s = None -> mkdir_rubrics_fails e = false).
Proof.
  destruct s; [right; discriminate|].
  destruct (mkdir_rubrics_fails e); [left | right]; auto.
Qed.

Lemma write_file_other f n content m g :
  g <> n -> (write_file f n content m).1 !! g = m !! g.
Proof.
  intros Hg. unfold write_file. destruct (valid_name n); simpl; [|reflexivity].
  destruct f; simpl; rewrite ?lookup_insert_ne by congruence; reflexivity.
Qed.

(** X10: for a file name without a [/], [save_rubric_to_file] never
    changes a file of the rubrics directory other than [{filename}.json],
    whether or not it makes a backup and whatever fails on the way. *)
Theorem save_keeps_other_files e rubric fn cb s g :
  valid_name fn = true ->
  g <> rubric_path fn ->
  (save_rubric_to_file e rubric fn cb s).1.1 ≫= (fun d => files d !! g)
  = s ≫= (fun d => files d !! g).
Proof.
  intros _ Hg. destruct (mkdir_cases e s) as [[-> Hmk]|Hok].
  - unfold save_rubric_to_file. rewrite Hmk. reflexivity.
  - rewrite (save_unfold e rubric fn cb s Hok). cbn [fst snd mbind option_bind].
    cbn [files]. rewrite write_file_other by assumption.
    assert (forall d, files (if cb && bool_decide
                                       (is_Some (files d !! rubric_path fn))
                             then backup_step e fn d else (d, [])).1
                      = files d) as ->.
    { intros d. destruct (cb && _); [apply backup_step_files | reflexivity]. }
    destruct s as [d|]; simpl; [reflexivity | apply lookup_empty].
Qed.

Lemma save_keeps_other_files_witness :
  (save_rubric_to_file (quiet "20250102_090000") good_rubric "x" true
     (Some (RubricsDir {["y.json" := Garbage]} None))).1.1
    ≫= (fun d => files d !! "y.json")
  = Some (RubricsDir {["y.json" := Garbage]} None)
      ≫= (fun d => files d !! "y.json").
Proof.
  apply (save_keeps_other_files (quiet "20250102_090000") good_rubric "x" true
           (Some (RubricsDir {["y.json" := Garbage]} None)) "y.json").
  - reflexivity.
  - discriminate.
Defined.

(** X11: for a file name without a [/], when no backup is asked for or
    there is no current file under the name, [save_rubric_to_file] prints
    nothing and leaves the versions directory as it was (it does not even
    create it). *)
Theorem save_without_backup e rubric fn cb s :
  valid_name fn = true ->
  cb = false \/ s ≫= (fun d => files d !! rubric_path fn) = None ->
  (save_rubric_to_file e rubric fn cb s).1.2 = []
  /\ (save_rubric_to_file e rubric fn cb s).1.1 ≫= versions = s ≫= versions.
Proof.
  intros _ H. destruct (mkdir_cases e s) as [[-> Hmk]|Hok].
  - unfold save_rubric_to_file. rewrite Hmk. auto.
  - rewrite (save_unfold e rubric fn cb s Hok). cbv zeta.
    assert (cb && bool_decide
                    (is_Some (files (default (RubricsDir ∅ None) s)
                              !! rubric_path fn)) = false) as ->.
    { destruct H as [->|H]; [reflexivity|]. apply andb_false_iff. right.
      apply bool_decide_eq_false. intros [f Hf].
      destruct s as [d|]; simpl in *; [congruence|].
      rewrite lookup_empty in Hf. discriminate. }
    simpl. destruct s; auto.
Qed.

Lemma save_without_backup_witness :
  (save_rubric_to_file (quiet "20250102_090000") good_rubric "x" true None).1.2
  = []
  /\ (save_rubric_to_file (quiet "20250102_090000") good_rubric "x" true
        None).1.1 ≫= versions
     = None.
Proof.
  apply (save_without_backup (quiet "20250102_090000") good_rubric "x" true None).
  - reflexivity.
  - right. reflexivity.
Defined.






(** ** Every valid current rubric is listed *)








(** ** The keys the validator reads *)

(** X15: [validate_rubric] reads the keys [categories], [criteria],
    [scale], [overall_method] and [thresholds] of the rubric and no other:
    setting any other key ([status], [name], [version], ...) to any value
    does not change what it returns. So the copy a save marks as archived
    and the rubric a restore marks as current are as valid as the rubric
    they come from. *)
Theorem validate_ignores_other_keys d k v :
  ~ In k ["categories"; "criteria"; "scale"; "overall_method"; "thresholds"] ->
  validate_rubric (VDict (dict_set k v d)) = validate_rubric (VDict d).
Proof.
  intros Hk.
  assert ("categories" <> k /\ "criteria" <> k /\ "scale" <> k
          /\ "overall_method" <> k /\ "thresholds" <> k)
    as (H1 & H2 & H3 & H4 & H5).
  { repeat split; intros <-; apply Hk; simpl; auto 10. }
  assert (check_new_format (VDict (dict_set k v d))
          = check_new_format (VDict d)) as Hnew.
  { unfold check_new_format, require_keys.
    cbn [all_in contains missing_of getitem missing_keys List.filter].
    rewrite !dict_has_set_ne by assumption.
    rewrite (dict_get_set_ne "categories") by assumption. reflexivity. }
  assert (check_old_format (VDict (dict_set k v d))
          = check_old_format (VDict d)) as Hold.
  { unfold check_old_format, require_keys.
    cbn [all_in contains missing_of getitem missing_keys List.filter].
    rewrite !dict_has_set_ne by assumption.
    rewrite (dict_get_set_ne "criteria") by assumption. reflexivity. }
  rewrite !validate_rubric_of_check. unfold check_rubric.
  cbn [contains eval getitem].
  rewrite !dict_has_set_ne by assumption.
  rewrite (dict_get_set_ne "scale"), (dict_get_set_ne "thresholds")
    by assumption.
  rewrite Hnew, Hold. reflexivity.
Qed.

Lemma validate_ignores_other_keys_witness :
  validate_rubric (VDict (dict_set "status" (VStr "archive") current_fields))
  = validate_rubric (VDict current_fields).
Proof.
  apply (validate_ignores_other_keys current_fields "status" (VStr "archive")).
  simpl. intros [H|[H|[H|[H|[H|[]]]]]]; discriminate H.
Defined.

(** ** Scale and thresholds of an accepted rubric *)

Lemma check_scale_Pass v u :
  check_bounds v "min" "max" "min"
    ScaleNotDict ScaleMissingKeys ScaleOrder ScaleNotNumbers = Pass u ->
  exists lo hi,
    bind (getitem v "min") to_float = Ok lo
    /\ bind (getitem v "max") to_float = Ok hi
    /\ PrimFloat.leb hi lo = false.
Proof.
  unfold check_bounds. destruct v as [| | | | | |d]; try discriminate.
  intros H. pass_inv H as u1 H1. pass_inv H as a Ha. pass_inv H as b Hb.
  apply try_number_Pass in Ha, Hb. cbn [String.eqb Ascii.eqb] in *.
  simpl in H. apply reject_if_Pass in H. eauto.
Qed.

Lemma check_thresholds_Pass v u :
  check_bounds v "revise" "pass" "pass"
    ThresholdsNotDict ThresholdsMissingKeys ThresholdsOrder ThresholdsNotNumbers
  = Pass u ->
  exists revise pass,
    bind (getitem v "revise") to_float = Ok revise
    /\ bind (getitem v "pass") to_float = Ok pass
    /\ PrimFloat.leb pass revise = false.
Proof.
  unfold check_bounds. destruct v as [| | | | | |d]; try discriminate.
  intros H. pass_inv H as u1 H1. pass_inv H as a Ha. pass_inv H as b Hb.
  apply try_number_Pass in Ha, Hb. simpl in H. apply reject_if_Pass in H.
  eauto.
Qed.

(** X16: a rubric that [validate_rubric] accepts has a [scale] whose [min]
    and [max] convert to floats with not [min >= max], and [thresholds]
    whose [revise] and [pass] convert to floats with not [revise >= pass]
    (the comparisons of the code, which are false of a NaN). *)
Theorem accepted_scale_and_thresholds rubric :
  validate_rubric rubric = Ok (true, None) ->
  exists scale thresholds lo hi revise pass,
    getitem rubric "scale" = Ok scale
    /\ bind (getitem scale "min") to_float = Ok lo
    /\ bind (getitem scale "max") to_float = Ok hi
    /\ PrimFloat.leb hi lo = false
    /\ getitem rubric "thresholds" = Ok thresholds
    /\ bind (getitem thresholds "revise") to_float = Ok revise
    /\ bind (getitem thresholds "pass") to_float = Ok pass
    /\ PrimFloat.leb pass revise = false.
Proof.
  intros H. apply validate_rubric_accepts in H as [_ H].
  unfold check_rubric in H.
  pass_inv H as is_new H1. pass_inv H as is_old H2. pass_inv H as u1 H3.
  pass_inv H as u2 H4. pass_inv H as scale H5. pass_inv H as u3 H6.
  pass_inv H as thresholds H7.
  apply eval_Pass in H5, H7.
  apply check_scale_Pass in H6 as (lo & hi & Hlo & Hhi & Hscale).
  apply check_thresholds_Pass in H as (revise & pass & Hrev & Hpass & Hthr).
  exists scale, thresholds, lo, hi, revise, pass. auto 10.
Qed.

Lemma accepted_scale_and_thresholds_witness :
  exists scale thresholds lo hi revise pass,
    getitem good_rubric "scale" = Ok scale
    /\ bind (getitem scale "min") to_float = Ok lo
    /\ bind (getitem scale "max") to_float = Ok hi
    /\ PrimFloat.leb hi lo = false
    /\ getitem good_rubric "thresholds" = Ok thresholds
    /\ bind (getitem thresholds "revise") to_float = Ok revise
    /\ bind (getitem thresholds "pass") to_float = Ok pass
    /\ PrimFloat.leb pass revise = false.
Proof.
  apply (accepted_scale_and_thresholds good_rubric). vm_compute. reflexivity.
Defined.

(** ** Ids of an accepted rubric *)

Lemma set_member_false v seen :
  set_member v seen = Ok false -> forall x, In x seen -> same_id v x = false.
Proof.
  unfold set_member, same_id. intros H x Hx.
  assert (existsb (fun w => key_eq v w || is_nan_value v && is_nan_value w) seen
          = false) as Hex.
  { destruct v; try discriminate; injection H as H; exact H. }
  destruct (key_eq v x || is_nan_value v && is_nan_value x) eqn:E; [|reflexivity].
  assert (existsb (fun w => key_eq v w || is_nan_value v && is_nan_value w) seen
          = true) by (apply existsb_exists; eauto).
  congruence.
Qed.

Section SeenLoop.

Context {state : Type} (key : string).
Variable step :
  nat -> value -> list value * state -> check (list value * state).
Variable loop :
  nat -> list value -> list value * state -> check (list value * state).

Hypothesis loop_cons : forall i c rest st,
  loop i (c :: rest) st = step i c st ≫= loop (S i) rest.
Hypothesis step_Pass : forall i c seen w st',
  step i c (seen, w) = Pass st' ->
  exists id, getitem c key = Ok id /\ st'.1 = id :: seen
             /\ forall x, In x seen -> same_id id x = false.

(** A loop that passes met no id twice, and none of the ids seen before. *)
Lemma seen_loop_distinct items : forall i seen w st',
  loop i items (seen, w) = Pass st' ->
  forall j item_j id_j,
    items !! j = Some item_j -> getitem item_j key = Ok id_j ->
    (forall x, In x seen -> same_id id_j x = false)
    /\ (forall k item_k id_k,
          (k < j)%nat -> items !! k = Some item_k ->
          getitem item_k key = Ok id_k -> same_id id_j id_k = false).
Proof.
  induction items as [|c rest IH]; intros i seen w st' H j item_j id_j Hj Hid.
  - discriminate Hj.
  - rewrite loop_cons in H. pass_inv H as st1 H1. destruct st1 as [seen1 w1].
    apply step_Pass in H1 as (id & Hc & Hseen & Hnew). simpl in Hseen.
    subst seen1. destruct j as [|j].
    + injection Hj as <-. rewrite Hc in Hid. injection Hid as <-.
      split; [exact Hnew | intros k ? ? Hk; lia].
    + destruct (IH _ _ _ _ H j item_j id_j Hj Hid) as [Hprev Hrest]. split.
      * intros x Hx. apply Hprev. right. exact Hx.
      * intros [|k] item_k id_k Hk Hlook Hidk.
        -- injection Hlook as <-. rewrite Hc in Hidk. injection Hidk as <-.
           apply Hprev. left. reflexivity.
        -- apply (Hrest k item_k id_k); [lia | assumption..].
Qed.

Lemma seen_loop_distinct_ids items i w st' :
  loop i items ([], w) = Pass st' -> distinct_ids key items.
Proof.
  intros H j k item_j item_k id_j id_k Hk Hj Hlook Hidj Hidk.
  destruct (seen_loop_distinct items i [] w st' H j item_j id_j Hj Hidj)
    as [_ Hrest].
  apply (Hrest k item_k id_k); assumption.
Qed.

End SeenLoop.

Lemma check_criterion_seen cid j criterion seen pts st' :
  check_criterion cid j criterion (seen, pts) = Pass st' ->
  exists id, getitem criterion "criterion_id" = Ok id /\ st'.1 = id :: seen
             /\ forall x, In x seen -> same_id id x = false.
Proof.
  unfold check_criterion. intros H.
  pass_inv H as u1 H1. pass_inv H as crid H2. pass_inv H as dup H3.
  pass_inv H as u2 H4. pass_inv H as p H5. pass_inv H as u3 H6.
  apply eval_Pass in H2, H3. apply reject_if_Pass in H4. subst dup.
  injection H as <-. exists crid. split; [assumption|]. split; [reflexivity|].
  apply set_member_false, H3.
Qed.

Lemma check_category_seen i category seen total st' :
  check_category i category (seen, total) = Pass st' ->
  exists id, getitem category "category_id" = Ok id /\ st'.1 = id :: seen
             /\ forall x, In x seen -> same_id id x = false.
Proof.
  unfold check_category. intros H.
  pass_inv H as u1 H1. pass_inv H as cid H2. pass_inv H as dup H3.
  pass_inv H as u2 H4. pass_inv H as w H5. pass_inv H as u3 H6.
  pass_inv H as mp H7. pass_inv H as u4 H8. pass_inv H as raw H9.
  pass_inv H as criteria H10. pass_inv H as st1 H11.
  destruct st1 as [seen' pts].
  pass_inv H as declared H12. pass_inv H as u5 H13.
  apply eval_Pass in H2, H3. apply reject_if_Pass in H4. subst dup.
  injection H as <-. exists cid. split; [assumption|]. split; [reflexivity|].
  apply set_member_false, H3.
Qed.

Lemma check_legacy_criterion_seen i criterion seen total st' :
  check_legacy_criterion i criterion (seen, total) = Pass st' ->
  exists id, getitem criterion "id" = Ok id /\ st'.1 = id :: seen
             /\ forall x, In x seen -> same_id id x = false.
Proof.
  unfold check_legacy_criterion. intros H.
  pass_inv H as u1 H1. pass_inv H as crid H2. pass_inv H as dup H3.
  pass_inv H as u2 H4. pass_inv H as w H5. pass_inv H as u3 H6.
  apply eval_Pass in H2, H3. apply reject_if_Pass in H4. subst dup.
  injection H as <-. exists crid. split; [assumption|]. split; [reflexivity|].
  apply set_member_false, H3.
Qed.

(** The criteria of every category of a list that passed the loop passed
    theirs. *)
Lemma check_categories_criteria categories : forall i st st',
  check_categories i categories st = Pass st' ->
  forall c criteria,
    In c categories -> getitem c "criteria" = Ok (VList criteria) ->
    exists cid st1, check_criteria cid 0 criteria ([], 0) = Pass st1.
Proof.
  induction categories as [|c0 rest IH]; simpl; intros i st st' H c crs Hin Hget.
  - contradiction.
  - pass_inv H as st1 H1. destruct Hin as [<-|Hin]; [|eauto].
    clear IH H. destruct st as [seen total]. unfold check_category in H1.
    pass_inv H1 as u1 H2. pass_inv H1 as cid H3. pass_inv H1 as dup H4.
    pass_inv H1 as u2 H5. pass_inv H1 as w H6. pass_inv H1 as u3 H7.
    pass_inv H1 as mp H8. pass_inv H1 as u4 H9. pass_inv H1 as raw H10.
    pass_inv H1 as criteria H11. pass_inv H1 as st2 H12.
    apply eval_Pass in H10. rewrite Hget in H10. injection H10 as <-.
    apply nonempty_list_Pass in H11 as [[= <-] _]. eauto.
Qed.

(** X17: in a rubric that [validate_rubric] accepts no id comes twice where
    the validator keeps a set of ids: the [category_id]s of the categories
    are pairwise different, the [criterion_id]s of the criteria of one
    category are, and so are the [id]s of the criteria of a flat rubric. *)
Theorem accepted_ids_distinct rubric :
  validate_rubric rubric = Ok (true, None) ->
  (forall categories,
     getitem rubric "categories" = Ok (VList categories) ->
     distinct_ids "category_id" categories
     /\ forall c criteria,
          In c categories -> getitem c "criteria" = Ok (VList criteria) ->
          distinct_ids "criterion_id" criteria)
  /\ (contains rubric "categories" = Ok false ->
      forall criteria,
        getitem rubric "criteria" = Ok (VList criteria) ->
        distinct_ids "id" criteria).
Proof.
  intros H. apply validate_rubric_accepts in H as [_ H]. split.
  - intros categories Hget.
    destruct (accepted_categories rubric categories Hget H) as (st & Hloop & _).
    split.
    + apply (seen_loop_distinct_ids "category_id" check_category
               check_categories) with (i := 0%nat) (w := 0%float) (st' := st);
        [reflexivity | apply check_category_seen | exact Hloop].
    + intros c criteria Hin Hc.
      destruct (check_categories_criteria _ _ _ _ Hloop c criteria Hin Hc)
        as (cid & st1 & Hcrit).
      apply (seen_loop_distinct_ids "criterion_id" (check_criterion cid)
               (check_criteria cid)) with (i := 0%nat) (w := 0) (st' := st1);
        [reflexivity | apply check_criterion_seen | exact Hcrit].
  - intros Hflat criteria Hget.
    destruct (accepted_criteria rubric Hflat H)
      as (d & criteria' & st & -> & Hd & Hloop & _).
    simpl in Hget. rewrite Hd in Hget. injection Hget as <-.
    apply (seen_loop_distinct_ids "id" check_legacy_criterion
             check_legacy_criteria) with (i := 0%nat) (w := 0%float) (st' := st);
      [reflexivity | apply check_legacy_criterion_seen | exact Hloop].
Qed.

Lemma accepted_ids_distinct_witness :
  (forall categories,
     getitem good_rubric "categories" = Ok (VList categories) ->
     distinct_ids "category_id" categories
     /\ forall c criteria,
          In c categories -> getitem c "criteria" = Ok (VList criteria) ->
          distinct_ids "criterion_id" criteria)
  /\ (contains good_rubric "categories" = Ok false ->
      forall criteria,
        getitem good_rubric "criteria" = Ok (VList criteria) ->
        distinct_ids "id" criteria).
Proof.
  apply (accepted_ids_distinct good_rubric). vm_compute. reflexivity.
Defined.

(** ** Weights and points of an accepted rubric *)

Lemma check_criterion_positive cid j criterion st st' :
  check_criterion cid j criterion st = Pass st' ->
  exists q, criterion_points criterion = Ok q /\ 0 < q.
Proof.
  destruct st as [seen pts]. unfold check_criterion. intros H.
  pass_inv H as u1 H1. pass_inv H as crid H2. pass_inv H as dup H3.
  pass_inv H as u2 H4. pass_inv H as p H5. pass_inv H as u3 H6.
  apply try_number_Pass in H5. apply reject_if_Pass in H6.
  exists p. split; [exact H5 | lia].
Qed.

Lemma check_criteria_positive cid criteria : forall j st st',
  check_criteria cid j criteria st = Pass st' ->
  Forall (fun cr => exists q, criterion_points cr = Ok q /\ 0 < q) criteria.
Proof.
  induction criteria as [|c rest IH]; simpl; intros j st st' H; [constructor|].
  pass_inv H as st1 H1. constructor; [|eauto].
  eapply check_criterion_positive, H1.
Qed.

Lemma check_category_numbers i category st st' :
  check_category i category st = Pass st' -> category_numbers_ok category.
Proof.
  destruct st as [seen total]. unfold check_category. intros H.
  pass_inv H as u1 H1. pass_inv H as cid H2. pass_inv H as dup H3.
  pass_inv H as u2 H4. pass_inv H as w H5. pass_inv H as u3 H6.
  pass_inv H as mp H7. pass_inv H as u4 H8. pass_inv H as raw H9.
  pass_inv H as criteria H10. pass_inv H as st1 H11.
  apply try_number_Pass in H5, H7. apply reject_if_Pass in H6, H8.
  apply orb_false_iff in H6 as [Hlow Hhigh].
  apply eval_Pass in H9. apply nonempty_list_Pass in H10 as [-> Hne].
  apply check_criteria_positive in H11.
  exists w, mp, criteria. repeat split; auto. lia.
Qed.

Lemma check_categories_numbers categories : forall i st st',
  check_categories i categories st = Pass st' ->
  Forall category_numbers_ok categories.
Proof.
  induction categories as [|c rest IH]; simpl; intros i st st' H; [constructor|].
  pass_inv H as st1 H1. constructor; [|eauto].
  eapply check_category_numbers, H1.
Qed.

(** X18: in a hierarchical rubric that [validate_rubric] accepts, every
    category has a weight that converts to a float neither below 0 nor
    above 1, a [max_points] that converts to a positive integer, and a
    non-empty list of criteria each of whose [max_points] converts to a
    positive integer. *)
Theorem accepted_category_numbers rubric categories :
  validate_rubric rubric = Ok (true, None) ->
  getitem rubric "categories" = Ok (VList categories) ->
  categories <> [] /\ Forall category_numbers_ok categories.
Proof.
  intros H Hget. apply validate_rubric_accepts in H as [_ H].
  destruct (accepted_categories rubric categories Hget H) as (st & Hloop & _).
  split; [|eapply check_categories_numbers, Hloop].
  intros ->. apply getitem_Ok in Hget as (d & -> & Hd).
  unfold check_rubric in H. simpl in H. unfold dict_has in H. rewrite Hd in H.
  simpl in H. pass_inv H as u1 H1. unfold check_new_format in H1.
  pass_inv H1 as u2 H2. pass_inv H1 as raw H3. pass_inv H1 as cats H4.
  apply eval_Pass in H3. simpl in H3. rewrite Hd in H3. injection H3 as <-.
  discriminate H4.
Qed.

Lemma accepted_category_numbers_witness :
  [category "content" (VInt 1) (VInt 10) [criterion "clarity" (VInt 10)]] <> []
  /\ Forall category_numbers_ok
       [category "content" (VInt 1) (VInt 10) [criterion "clarity" (VInt 10)]].
Proof.
  apply (accepted_category_numbers (VDict current_fields)).
  - vm_compute. reflexivity.
  - reflexivity.
Defined.

(** ** Printing and reading an integer *)

Lemma digitpart_digit (c : ascii) (z : Z) (d : Decimal.uint) :
  digit_of c = Some z ->
  digitpart (String c (NilEmpty.string_of_uint d))
  = (z :: (digitpart (NilEmpty.string_of_uint d)).1,
     (digitpart (NilEmpty.string_of_uint d)).2).
Proof.
  intros Hc. cbn [digitpart]. rewrite Hc.
  destruct d; cbn [NilEmpty.string_of_uint];
    try (destruct (digitpart (String _ _)); reflexivity).
  reflexivity.
Qed.

Lemma of_uint_acc_value (d : Decimal.uint) (acc : positive) :
  Z.pos (Pos.of_uint_acc d acc)
  = Z.of_N (Pos.of_uint d)
    + Z.pos acc * 10 ^ Z.of_N (DecimalPos.Unsigned.usize d).
Proof.
  change (Z.pos (Pos.of_uint_acc d acc))
    with (Z.of_N (N.pos (Pos.of_uint_acc d acc))).
  rewrite DecimalPos.Unsigned.of_uint_acc_rev.
  rewrite <- DecimalPos.Unsigned.of_uint_alt.
  rewrite N2Z.inj_add, N2Z.inj_mul, N2Z.inj_pow. reflexivity.
Qed.

Lemma usize_cons_value (d : Decimal.uint) :
  forall d', (d' = Decimal.D0 d \/ d' = Decimal.D1 d \/ d' = Decimal.D2 d
              \/ d' = Decimal.D3 d \/ d' = Decimal.D4 d \/ d' = Decimal.D5 d
              \/ d' = Decimal.D6 d \/ d' = Decimal.D7 d \/ d' = Decimal.D8 d
              \/ d' = Decimal.D9 d) ->
  10 ^ Z.of_N (DecimalPos.Unsigned.usize d')
  = 10 * 10 ^ Z.of_N (DecimalPos.Unsigned.usize d).
Proof.
  intros d' H.
  assert (DecimalPos.Unsigned.usize d'
          = N.succ (DecimalPos.Unsigned.usize d)) as ->.
  { repeat destruct H as [->|H]; try subst d'; reflexivity. }
  rewrite N2Z.inj_succ, Z.pow_succ_r by lia. reflexivity.
Qed.

Lemma digitpart_uint (d : Decimal.uint) :
  (digitpart (NilEmpty.string_of_uint d)).2 = ""
  /\ forall acc,
       fold_left (fun a x => 10 * a + x)
         (digitpart (NilEmpty.string_of_uint d)).1 acc
       = acc * 10 ^ Z.of_N (DecimalPos.Unsigned.usize d)
         + Z.of_N (Pos.of_uint d).
Proof.
  induction d as [|d [IHr IHv]|d [IHr IHv]|d [IHr IHv]|d [IHr IHv]|d [IHr IHv]
                  |d [IHr IHv]|d [IHr IHv]|d [IHr IHv]|d [IHr IHv]|d [IHr IHv]].
  { split; [reflexivity|]. intros acc. simpl. lia. }
  all: cbn [NilEmpty.string_of_uint].
  all: match goal with
       | |- context [digitpart (String ?c _)] =>
           lazymatch eval vm_compute in (digit_of c) with
           | Some ?z => rewrite (digitpart_digit c z d eq_refl)
           end
       end; cbn [fst snd fold_left].
  all: split; [exact IHr|]; intros acc; rewrite IHv.
  all: match goal with
       | |- context [DecimalPos.Unsigned.usize ?d'] =>
           rewrite (usize_cons_value d d' ltac:(auto 10))
       end.
  all: cbn [Pos.of_uint]; rewrite ?N2Z.inj_pos, ?of_uint_acc_value; ring.
Qed.

Lemma rstrip_cons (c : ascii) (s : string) :
  is_space c = false -> rstrip s = s -> rstrip (String c s) = String c s.
Proof.
  intros Hc Hs. cbn [rstrip]. rewrite Hs. destruct s; rewrite ?Hc; reflexivity.
Qed.

Lemma rstrip_uint (d : Decimal.uint) :
  rstrip (NilEmpty.string_of_uint d) = NilEmpty.string_of_uint d.
Proof.
  induction d; cbn [NilEmpty.string_of_uint];
    [reflexivity | apply rstrip_cons; [reflexivity | assumption]..].
Qed.

Lemma lstrip_uint (d : Decimal.uint) :
  lstrip (NilEmpty.string_of_uint d) = NilEmpty.string_of_uint d.
Proof. destruct d; reflexivity. Qed.

Lemma read_sign_uint (d : Decimal.uint) :
  read_sign (NilEmpty.string_of_uint d) = (false, NilEmpty.string_of_uint d).
Proof. destruct d; reflexivity. Qed.

Lemma digits_uint (d : Decimal.uint) :
  d <> Decimal.Nil ->
  exists ds,
    digitpart (NilEmpty.string_of_uint d) = (ds, "")
    /\ ds <> [] /\ digits_value ds = Z.of_N (Pos.of_uint d).
Proof.
  intros Hd. destruct (digitpart_uint d) as [Hrest Hvalue].
  destruct (digitpart (NilEmpty.string_of_uint d)) as [ds r] eqn:Hds.
  simpl in Hrest, Hvalue. subst r. exists ds. split; [reflexivity|]. split.
  - intros ->. destruct d; try congruence; cbn [NilEmpty.string_of_uint] in Hds.
    all: match type of Hds with
         | digitpart (String ?c _) = _ =>
             lazymatch eval vm_compute in (digit_of c) with
             | Some ?z => rewrite (digitpart_digit c z d eq_refl) in Hds
             end
         end; discriminate.
  - unfold digits_value. rewrite Hvalue. lia.
Qed.

Lemma to_uint_not_nil (p : positive) : Pos.to_uint p <> Decimal.Nil.
Proof.
  intros H. pose proof (DecimalPos.Unsigned.of_to p) as Hp.
  rewrite H in Hp. discriminate.
Qed.

(** [int(str(n)) == n] *)
Lemma int_of_string_of_int (n : Z) : int_of_string (string_of_int n) = Some n.
Proof.
  unfold string_of_int. destruct n as [|p|p]; [reflexivity|..];
    cbn [Z.to_int NilEmpty.string_of_int];
    destruct (digits_uint (Pos.to_uint p) (to_uint_not_nil p))
      as (ds & Hds & Hne & Hvalue);
    rewrite DecimalPos.Unsigned.of_to in Hvalue; unfold int_of_string, strip.
  - rewrite lstrip_uint, rstrip_uint, read_sign_uint, Hds.
    destruct ds; [congruence|]. rewrite Hvalue. reflexivity.
  - replace (lstrip (String "-" (NilEmpty.string_of_uint (Pos.to_uint p))))
      with (String "-" (NilEmpty.string_of_uint (Pos.to_uint p)))
      by reflexivity.
    rewrite rstrip_cons by (reflexivity || apply rstrip_uint).
    cbn [read_sign]. rewrite Hds. destruct ds; [congruence|].
    rewrite Hvalue. reflexivity.
Qed.

Lemma has_dot_uint (d : Decimal.uint) :
  has_dot (NilEmpty.string_of_uint d) = false.
Proof.
  induction d; cbn [NilEmpty.string_of_uint has_dot];
    [reflexivity | rewrite IHd; reflexivity ..].
Qed.

Lemma has_dot_string_of_int (n : Z) : has_dot (string_of_int n) = false.
Proof.
  unfold string_of_int. destruct (Z.to_int n); cbn [NilEmpty.string_of_int].
  - apply has_dot_uint.
  - cbn [has_dot]. rewrite has_dot_uint. reflexivity.
Qed.

(** ** Incrementing a version again and again *)

Lemma split_nonempty (s : string) : split "." s <> [].
Proof.
  destruct s as [|c s]; [discriminate|]. cbn [split].
  destruct (Ascii.eqb c "."); [discriminate|].
  destruct (split "." s); discriminate.
Qed.

Lemma split_parts_no_dot (s : string) :
  Forall (fun p => has_dot p = false) (split "." s).
Proof.
  induction s as [|c s IH]; [repeat constructor|]. cbn [split].
  destruct (Ascii.eqb c ".") eqn:Hc; [constructor; [reflexivity | exact IH]|].
  destruct (split "." s) as [|p ps]; [repeat constructor; simpl; rewrite Hc; reflexivity|].
  inversion IH as [|? ? Hp Hps]; subst. constructor; [|exact Hps].
  simpl. rewrite Hc. exact Hp.
Qed.

Lemma split_app_dot_one (s : string) :
  split "." (s ++ ".1") = (split "." s ++ ["1"])%list.
Proof.
  induction s as [|c s IH]; [reflexivity|].
  rewrite string_app_cons. cbn [split]. rewrite IH.
  destruct (Ascii.eqb c "."); [reflexivity|].
  pose proof (split_nonempty s) as Hne.
  destruct (split "." s); [congruence | reflexivity].
Qed.

Lemma increment_version_parsed s major minor rest n :
  split "." s = major :: minor :: rest ->
  int_of_string minor = Some n ->
  increment_version s = Ok (major ++ "." ++ string_of_int (n + 1)).
Proof.
  intros Hs Hm. unfold increment_version, increment_body.
  rewrite Hs. simpl. rewrite Hm. reflexivity.
Qed.

Lemma increment_version_unparsed s major minor rest :
  split "." s = major :: minor :: rest ->
  int_of_string minor = None ->
  increment_version s = Ok (s ++ ".1").
Proof.
  intros Hs Hm. unfold increment_version, increment_body.
  rewrite Hs. simpl. rewrite Hm. reflexivity.
Qed.

(** From [{major}.{n}] on, each call counts the second part up by one. *)
Lemma increment_times_canonical (major : string) :
  has_dot major = false ->
  forall k n,
    increment_times k (major ++ "." ++ string_of_int n)
    = Ok (major ++ "." ++ string_of_int (n + Z.of_nat k)).
Proof.
  intros Hmajor. induction k as [|k IH]; intros n.
  - simpl. rewrite Z.add_0_r. reflexivity.
  - cbn [increment_times].
    rewrite (increment_version_parsed _ major (string_of_int n) [] n).
    + cbn [bind]. rewrite IH.
      replace (n + 1 + Z.of_nat k) with (n + Z.of_nat (S k)) by lia.
      reflexivity.
    + rewrite (split_dot_app _ _ Hmajor).
      rewrite (split_no_dot _ (has_dot_string_of_int n)). reflexivity.
    + apply int_of_string_of_int.
Qed.

(** X19: edits in a row count up. When the second dotted part of a version
    reads as the integer [n], [k + 1] calls of [increment_version] in a row
    give [{major}.{n + k + 1}], whatever followed the second part; a version
    without a dot becomes [{version}.{k + 1}]; and a version whose second
    part does not read as an integer is never counted up: every call
    appends [.1] and leaves the first two parts as they are. *)
Theorem increment_version_repeated :
  (forall s major minor rest n k,
     split "." s = major :: minor :: rest ->
     int_of_string minor = Some n ->
     increment_times (S k) s
     = Ok (major ++ "." ++ string_of_int (n + Z.of_nat (S k))))
  /\ (forall s k,
        has_dot s = false ->
        increment_times (S k) s
        = Ok (s ++ "." ++ string_of_int (Z.of_nat (S k))))
  /\ (forall k s major minor rest,
        split "." s = major :: minor :: rest ->
        int_of_string minor = None ->
        exists v rest',
          increment_times k s = Ok v
          /\ split "." v = major :: minor :: rest'
          /\ String.length v = (String.length s + 2 * k)%nat).
Proof.
  split; [|split].
  - intros s major minor rest n k Hs Hm. cbn [increment_times].
    rewrite (increment_version_parsed s major minor rest n Hs Hm). cbn [bind].
    assert (has_dot major = false) as Hmajor.
    { pose proof (split_parts_no_dot s) as Hall. rewrite Hs in Hall.
      inversion Hall; assumption. }
    rewrite (increment_times_canonical major Hmajor).
    replace (n + 1 + Z.of_nat k) with (n + Z.of_nat (S k)) by lia.
    reflexivity.
  - intros s k Hs. cbn [increment_times].
    assert (increment_version s = Ok (s ++ "." ++ string_of_int 1)) as ->.
    { unfold increment_version, increment_body.
      rewrite (split_no_dot s Hs). reflexivity. }
    cbn [bind]. rewrite (increment_times_canonical s Hs).
    replace (1 + Z.of_nat k) with (Z.of_nat (S k)) by lia. reflexivity.
  - induction k as [|k IH]; intros s major minor rest Hs Hm.
    + exists s, rest. rewrite Nat.add_0_r. auto.
    + cbn [increment_times].
      rewrite (increment_version_unparsed s major minor rest Hs Hm).
      cbn [bind].
      destruct (IH (s ++ ".1") major minor (rest ++ ["1"])%list)
        as (v & rest' & Hv & Hsplit & Hlen).
      * rewrite split_app_dot_one, Hs. reflexivity.
      * exact Hm.
      * exists v, rest'. rewrite Hv, Hlen, string_length_app. simpl.
        repeat split; auto. lia.
Qed.
